(** * A DNS header codec and its request/response pipeline

    Shallow embedding of the Go program of this repository.  Two versions of
    the program are present in the sources:

    - the server that parses the header of the request ([parseHeader],
      [BuildFlags], [BuildHeader], [HandleReceivedData]); its definitions are
      at the top level of this file;
    - [src/app/main.go], an earlier server that ignores the request and
      answers with a hard-coded header; the two functions in which it differs
      ([BuildHeader] and [HandleReceivedData]) are in [Module App].

    The types and the section encoders [BuildQuestion] and [BuildAnswer] are
    the same text in both files and are shared.

    Conventions.  A Go [uintN] is a [Z] and every Go operation that can leave
    the range is followed by its wrap-around ([uint8], [uint16], [uint32]).
    A Go [byte] is a [Byte.byte]; a [[]byte] and a Go [string] (an immutable
    byte sequence) are a [list byte].  A run-time panic is an outcome of its
    own, threaded through a small error monad. *)

From Stdlib Require Import ZArith Lia List Bool Btauto.
From Stdlib Require Import Strings.Byte Strings.String.
From coqutil Require Import Byte Z.bitblast.
From stdpp Require Import base list.

Local Open Scope Z_scope.

(** ** Run-time outcomes *)

Inductive panic : Set :=
| SliceBoundsOutOfRange   (* panic: runtime error: slice bounds out of range *)
| IndexOutOfRange.        (* panic: runtime error: index out of range *)

Inductive outcome (A : Type) : Type :=
| Ok (a : A)
| Panic (p : panic).
Arguments Ok {A} a.
Arguments Panic {A} p.

Definition bind {A B} (m : outcome A) (k : A -> outcome B) : outcome B :=
  match m with
  | Ok a => k a
  | Panic p => Panic p
  end.

Notation "'do' x <- m ; k" := (bind m (fun x => k))
  (at level 10, x name, m at level 100, k at level 200).

Definition returns {A} (m : outcome A) : bool :=
  match m with Ok _ => true | Panic _ => false end.

(** ** Fixed-width integers *)

Definition uint8 (z : Z) : Z := z mod 2 ^ 8.
Definition uint16 (z : Z) : Z := z mod 2 ^ 16.
Definition uint32 (z : Z) : Z := z mod 2 ^ 32.

(** [byte(v)]: conversion of an unsigned integer to a byte keeps the low
    eight bits. *)
Definition byte_of (v : Z) : byte := byte.of_Z v.

(** [uint16(b)] for a byte [b]. *)
Definition Z_of_byte (b : byte) : Z := byte.unsigned b.

(** ** Slices *)

(** [make([]byte, n)]. *)
Definition make (n : nat) : list byte := replicate n Byte.x00.

(** The slice expression [bd[lo:hi]] on [bd := []byte(data)].  Go requires
    [lo <= hi <= cap(bd)] and panics otherwise.  The conversion gives [bd]
    the length of [data]; its capacity is implementation-specific and only
    known to be at least the length.  The model takes the bound every
    implementation honours, the length: a slice expression that reaches past
    the last byte of the data has the outcome [Panic SliceBoundsOutOfRange],
    the outcome of an implementation without spare capacity.  The theorems
    on the codec are about data that holds the bytes the program slices,
    where the capacity plays no part; what the model gives below that is
    recorded for the empty datagram. *)
Definition slice_expr (bd : list byte) (lo hi : nat) : outcome (list byte) :=
  if (lo <=? hi)%nat && (hi <=? length bd)%nat
  then Ok (take (hi - lo) (drop lo bd))
  else Panic SliceBoundsOutOfRange.

(** ** encoding/binary, big endian *)

(** [binary.BigEndian.Uint16(b)]:
    [_ = b[1]; return uint16(b[1]) | uint16(b[0])<<8]. *)
Definition Uint16 (b : list byte) : outcome Z :=
  match b with
  | b0 :: b1 :: _ => Ok (Z.lor (Z_of_byte b1) (uint16 (Z.shiftl (Z_of_byte b0) 8)))
  | _ => Panic IndexOutOfRange
  end.

(** [binary.BigEndian.PutUint16(buf[lo:lo+2], v)]:
    [b[0] = byte(v >> 8); b[1] = byte(v)], where [b] aliases [buf] from
    index [lo] on.  Every call in the program has its window inside the
    twelve bytes of [buf]. *)
Definition PutUint16 (buf : list byte) (lo : nat) (v : Z) : list byte :=
  <[S lo := byte_of v]> (<[lo := byte_of (Z.shiftr v 8)]> buf).

(** [binary.Write(w, binary.BigEndian, v)] for [v] a [uint16] and a [uint32]:
    the bytes appended to the writer. *)
Definition Write16 (v : Z) : list byte :=
  [byte_of (Z.shiftr v 8); byte_of v].

Definition Write32 (v : Z) : list byte :=
  [byte_of (Z.shiftr v 24); byte_of (Z.shiftr v 16);
   byte_of (Z.shiftr v 8); byte_of v].

(** ** Data model *)

(** [type Question struct].  ([Type] and [Class] are reserved words here, so
    the fields carry the struct's initial.) *)
Record Question := {
  q_Name : list byte;
  q_Type : Z;    (* uint16 *)
  q_Class : Z    (* uint16 *)
}.

(** [type Record struct]. *)
Record DNSRecord := {
  r_Name : list byte;
  r_Type : Z;    (* uint16 *)
  r_Class : Z;   (* uint16 *)
  r_TTL : Z;     (* uint32 *)
  r_Len : Z;     (* uint16 *)
  r_Data : list byte
}.

(** [type ResultCode int] and its constants. *)
Definition ResultCode := Z.
Definition NOERROR : ResultCode := 0.
Definition FORMERR : ResultCode := 1.
Definition SERVFAIL : ResultCode := 2.
Definition NXDOMAIN : ResultCode := 3.
Definition NOTIMP : ResultCode := 4.
Definition REFUSED : ResultCode := 5.

(** [type DNSHeader struct].  The field [Z] of the source is [Z_] here. *)
Record DNSHeader := {
  Id : Z;                        (* uint16 *)
  Recursion_desired : bool;
  Truncated_message : bool;
  Authoritative_answer : bool;
  Opcode : Z;                    (* uint8 *)
  Response : bool;
  Rescode : ResultCode;          (* int *)
  Checking_disabled : bool;
  Authed_data : bool;
  Z_ : bool;
  Recursion_available : bool;
  Questions : Z;                 (* uint16 *)
  Answers : Z;                   (* uint16 *)
  Authoritative_entries : Z;     (* uint16 *)
  Resource_entries : Z           (* uint16 *)
}.

Definition NewDNSHeader : DNSHeader := {|
  Id := 0;
  Response := false;
  Opcode := 0;
  Authoritative_answer := false;
  Truncated_message := false;
  Recursion_desired := false;
  Recursion_available := false;
  Z_ := false;
  Rescode := NOERROR;
  Questions := 0;
  Answers := 0;
  Authoritative_entries := 0;
  Resource_entries := 0;
  Checking_disabled := false;
  Authed_data := false
|}.

(** Field assignments [header.F = v]. *)
Definition set_Id (v : Z) (h : DNSHeader) : DNSHeader :=
  {| Id := v; Recursion_desired := Recursion_desired h;
     Truncated_message := Truncated_message h;
     Authoritative_answer := Authoritative_answer h; Opcode := Opcode h;
     Response := Response h; Rescode := Rescode h;
     Checking_disabled := Checking_disabled h; Authed_data := Authed_data h;
     Z_ := Z_ h; Recursion_available := Recursion_available h;
     Questions := Questions h; Answers := Answers h;
     Authoritative_entries := Authoritative_entries h;
     Resource_entries := Resource_entries h |}.

Definition set_Questions (v : Z) (h : DNSHeader) : DNSHeader :=
  {| Id := Id h; Recursion_desired := Recursion_desired h;
     Truncated_message := Truncated_message h;
     Authoritative_answer := Authoritative_answer h; Opcode := Opcode h;
     Response := Response h; Rescode := Rescode h;
     Checking_disabled := Checking_disabled h; Authed_data := Authed_data h;
     Z_ := Z_ h; Recursion_available := Recursion_available h;
     Questions := v; Answers := Answers h;
     Authoritative_entries := Authoritative_entries h;
     Resource_entries := Resource_entries h |}.

Definition set_Answers (v : Z) (h : DNSHeader) : DNSHeader :=
  {| Id := Id h; Recursion_desired := Recursion_desired h;
     Truncated_message := Truncated_message h;
     Authoritative_answer := Authoritative_answer h; Opcode := Opcode h;
     Response := Response h; Rescode := Rescode h;
     Checking_disabled := Checking_disabled h; Authed_data := Authed_data h;
     Z_ := Z_ h; Recursion_available := Recursion_available h;
     Questions := Questions h; Answers := v;
     Authoritative_entries := Authoritative_entries h;
     Resource_entries := Resource_entries h |}.

Definition set_Response (v : bool) (h : DNSHeader) : DNSHeader :=
  {| Id := Id h; Recursion_desired := Recursion_desired h;
     Truncated_message := Truncated_message h;
     Authoritative_answer := Authoritative_answer h; Opcode := Opcode h;
     Response := v; Rescode := Rescode h;
     Checking_disabled := Checking_disabled h; Authed_data := Authed_data h;
     Z_ := Z_ h; Recursion_available := Recursion_available h;
     Questions := Questions h; Answers := Answers h;
     Authoritative_entries := Authoritative_entries h;
     Resource_entries := Resource_entries h |}.

Definition set_Authoritative_answer (v : bool) (h : DNSHeader) : DNSHeader :=
  {| Id := Id h; Recursion_desired := Recursion_desired h;
     Truncated_message := Truncated_message h;
     Authoritative_answer := v; Opcode := Opcode h;
     Response := Response h; Rescode := Rescode h;
     Checking_disabled := Checking_disabled h; Authed_data := Authed_data h;
     Z_ := Z_ h; Recursion_available := Recursion_available h;
     Questions := Questions h; Answers := Answers h;
     Authoritative_entries := Authoritative_entries h;
     Resource_entries := Resource_entries h |}.

Definition set_Truncated_message (v : bool) (h : DNSHeader) : DNSHeader :=
  {| Id := Id h; Recursion_desired := Recursion_desired h;
     Truncated_message := v;
     Authoritative_answer := Authoritative_answer h; Opcode := Opcode h;
     Response := Response h; Rescode := Rescode h;
     Checking_disabled := Checking_disabled h; Authed_data := Authed_data h;
     Z_ := Z_ h; Recursion_available := Recursion_available h;
     Questions := Questions h; Answers := Answers h;
     Authoritative_entries := Authoritative_entries h;
     Resource_entries := Resource_entries h |}.

Definition set_Opcode (v : Z) (h : DNSHeader) : DNSHeader :=
  {| Id := Id h; Recursion_desired := Recursion_desired h;
     Truncated_message := Truncated_message h;
     Authoritative_answer := Authoritative_answer h; Opcode := v;
     Response := Response h; Rescode := Rescode h;
     Checking_disabled := Checking_disabled h; Authed_data := Authed_data h;
     Z_ := Z_ h; Recursion_available := Recursion_available h;
     Questions := Questions h; Answers := Answers h;
     Authoritative_entries := Authoritative_entries h;
     Resource_entries := Resource_entries h |}.

Definition set_Recursion_desired (v : bool) (h : DNSHeader) : DNSHeader :=
  {| Id := Id h; Recursion_desired := v;
     Truncated_message := Truncated_message h;
     Authoritative_answer := Authoritative_answer h; Opcode := Opcode h;
     Response := Response h; Rescode := Rescode h;
     Checking_disabled := Checking_disabled h; Authed_data := Authed_data h;
     Z_ := Z_ h; Recursion_available := Recursion_available h;
     Questions := Questions h; Answers := Answers h;
     Authoritative_entries := Authoritative_entries h;
     Resource_entries := Resource_entries h |}.

Definition set_Recursion_available (v : bool) (h : DNSHeader) : DNSHeader :=
  {| Id := Id h; Recursion_desired := Recursion_desired h;
     Truncated_message := Truncated_message h;
     Authoritative_answer := Authoritative_answer h; Opcode := Opcode h;
     Response := Response h; Rescode := Rescode h;
     Checking_disabled := Checking_disabled h; Authed_data := Authed_data h;
     Z_ := Z_ h; Recursion_available := v;
     Questions := Questions h; Answers := Answers h;
     Authoritative_entries := Authoritative_entries h;
     Resource_entries := Resource_entries h |}.

Definition set_Z (v : bool) (h : DNSHeader) : DNSHeader :=
  {| Id := Id h; Recursion_desired := Recursion_desired h;
     Truncated_message := Truncated_message h;
     Authoritative_answer := Authoritative_answer h; Opcode := Opcode h;
     Response := Response h; Rescode := Rescode h;
     Checking_disabled := Checking_disabled h; Authed_data := Authed_data h;
     Z_ := v; Recursion_available := Recursion_available h;
     Questions := Questions h; Answers := Answers h;
     Authoritative_entries := Authoritative_entries h;
     Resource_entries := Resource_entries h |}.

Definition set_Rescode (v : ResultCode) (h : DNSHeader) : DNSHeader :=
  {| Id := Id h; Recursion_desired := Recursion_desired h;
     Truncated_message := Truncated_message h;
     Authoritative_answer := Authoritative_answer h; Opcode := Opcode h;
     Response := Response h; Rescode := v;
     Checking_disabled := Checking_disabled h; Authed_data := Authed_data h;
     Z_ := Z_ h; Recursion_available := Recursion_available h;
     Questions := Questions h; Answers := Answers h;
     Authoritative_entries := Authoritative_entries h;
     Resource_entries := Resource_entries h |}.

(** ** The header codec *)

(** [func parseHeader(data string) DNSHeader]. *)
Definition parseHeader (data : list byte) : outcome DNSHeader :=
  let bd := data in
  let header := NewDNSHeader in
  do b01 <- slice_expr bd 0 2;
  do id <- Uint16 b01;
  let header := set_Id id header in
  do b45 <- slice_expr bd 4 6;
  do qd <- Uint16 b45;
  let header := set_Questions qd header in
  do b45' <- slice_expr bd 4 6;
  do an <- Uint16 b45';
  let header := set_Answers an header in
  do b23 <- slice_expr bd 2 4;
  do flags <- Uint16 b23;
  let header := set_Response true header in
  let header := set_Authoritative_answer false header in
  let header := set_Truncated_message false header in
  let header := set_Opcode (uint8 (Z.shiftr (Z.land flags 0x7800) 11)) header in
  let header := set_Recursion_desired (negb (Z.land flags 0x0100 =? 0)) header in
  let header := set_Recursion_available false header in
  let header := set_Z false header in
  let header := set_Rescode NOTIMP header in
  Ok header.

(** [func BuildFlags(header DNSHeader) uint16]. *)
Definition BuildFlags (header : DNSHeader) : Z :=
  let flags := 0 in
  let flags := if Response header then Z.lor flags 0x8000 else flags in
  let flags := Z.lor flags (uint16 (Z.shiftl (uint16 (Opcode header)) 11)) in
  let flags := if Authoritative_answer header then Z.lor flags 0x0400 else flags in
  let flags := if Truncated_message header then Z.lor flags 0x0200 else flags in
  let flags := if Recursion_desired header then Z.lor flags 0x0100 else flags in
  let flags := if Recursion_available header then Z.lor flags 0x0080 else flags in
  let flags := if Bool.eqb (Z_ header) true
               then Z.lor flags (uint16 (Z.shiftl 1 4))
               else Z.lor flags (uint16 (Z.shiftl 0 4)) in
  let flags := Z.lor flags (uint16 (Rescode header)) in
  flags.

(** [func BuildHeader(header DNSHeader) []byte]. *)
Definition BuildHeader (header : DNSHeader) : list byte :=
  let buf := make 12 in
  let buf := PutUint16 buf 0 (Id header) in
  let buf := PutUint16 buf 2 (BuildFlags header) in
  let buf := PutUint16 buf 4 (Questions header) in
  let buf := PutUint16 buf 6 (Answers header) in
  buf.

(** ** The section encoders *)

(** [func BuildAnswer(r Record) []byte]: the writes into the
    [bytes.Buffer], in order. *)
Definition BuildAnswer (r : DNSRecord) : list byte :=
  let b := [] in
  let b := b ++ r_Name r in
  let b := b ++ Write16 (r_Type r) in
  let b := b ++ Write16 (r_Class r) in
  let b := b ++ Write32 (r_TTL r) in
  let b := b ++ Write16 (r_Len r) in
  let b := b ++ r_Data r in
  b.

(** [func BuildQuestion(question Question) []byte]. *)
Definition BuildQuestion (question : Question) : list byte :=
  let b := [] in
  let b := b ++ q_Name question in
  let b := b ++ Write16 (q_Type question) in
  let b := b ++ Write16 (q_Class question) in
  b.

(** ** The request/response pipeline *)

(** The string literal ["\x0ccodecrafters\x02io\x00"]. *)
Definition codecrafters_io : list byte :=
  Byte.x0c :: list_byte_of_string "codecrafters"
    ++ Byte.x02 :: list_byte_of_string "io" ++ [Byte.x00].

Definition question : Question :=
  {| q_Name := codecrafters_io; q_Type := 1; q_Class := 1 |}.

Definition answer : DNSRecord :=
  {| r_Name := codecrafters_io; r_Type := 1; r_Class := 1; r_TTL := 60;
     r_Len := 4; r_Data := [Byte.x08; Byte.x08; Byte.x08; Byte.x08] |}.

(** [func HandleReceivedData(data string) []byte]. *)
Definition HandleReceivedData (data : list byte) : outcome (list byte) :=
  do header <- parseHeader data;
  let buf := BuildHeader header in
  let buf := buf ++ BuildQuestion question in
  let buf := buf ++ BuildAnswer answer in
  Ok buf.

(** ** The server of [src/app/main.go] *)

Module App.

(** [func BuildHeader(header DNSHeader) []byte]: the flags word is the
    literal [0b1000_0000_0000_0000]. *)
Definition BuildHeader (header : DNSHeader) : list byte :=
  let buf := make 12 in
  let buf := PutUint16 buf 0 (Id header) in
  let buf := PutUint16 buf 2 0x8000 in
  let buf := PutUint16 buf 4 (Questions header) in
  let buf := PutUint16 buf 6 (Answers header) in
  buf.

(** [func HandleReceivedData(data string) []byte]. *)
Definition HandleReceivedData (data : list byte) : list byte :=
  let header := NewDNSHeader in
  let header := set_Id 1234 header in
  let header := set_Questions 1 header in
  let header := set_Answers 1 header in
  let buf := BuildHeader header in
  let buf := buf ++ BuildQuestion question in
  let buf := buf ++ BuildAnswer answer in
  buf.

End App.

(** ** Reading the wire format *)

(** [binary.BigEndian.Uint16(bd[lo:lo+2])]: the big-endian 16-bit word at
    offset [lo], the way [parseHeader] reads one. *)
Definition be16_at (bd : list byte) (lo : nat) : outcome Z :=
  do s <- slice_expr bd lo (lo + 2);
  Uint16 s.

(** The flags word of a request, as [parseHeader] reads it. *)
Definition flags_of (d2 d3 : byte) : Z :=
  Z.lor (Z_of_byte d3) (uint16 (Z.shiftl (Z_of_byte d2) 8)).

(** ** Ranges of the data model *)

(** [z] is a [k]-bit unsigned value. *)
Definition in_bits (k z : Z) : bool := (0 <=? z) && (z <? 2 ^ k).

(** The opcode and the result code fit the four bits the header gives each
    of them. *)
Definition fits_slots (h : DNSHeader) : bool :=
  in_bits 4 (Opcode h) && in_bits 4 (Rescode h).

(** A header whose numeric fields are in the ranges of the data model:
    16-bit identifier and counts, 4-bit opcode and result code. *)
Definition valid_header (h : DNSHeader) : bool :=
  in_bits 16 (Id h) && fits_slots h
  && in_bits 16 (Questions h) && in_bits 16 (Answers h)
  && in_bits 16 (Authoritative_entries h) && in_bits 16 (Resource_entries h).

(** ** Sample inputs *)

(** A response header with every flag set, opcode 2 and result code
    REFUSED. *)
Definition all_flags : DNSHeader := {|
  Id := 0xBEEF;
  Recursion_desired := true; Truncated_message := true;
  Authoritative_answer := true; Opcode := 2; Response := true;
  Rescode := REFUSED; Checking_disabled := false; Authed_data := false;
  Z_ := true; Recursion_available := true;
  Questions := 1; Answers := 1;
  Authoritative_entries := 0; Resource_entries := 0 |}.


(** A query header: ID 1234, RD set, one question. *)
Definition scenario_bytes : list byte :=
  [Byte.x04; Byte.xd2; Byte.x01; Byte.x00; Byte.x00; Byte.x01;
   Byte.x00; Byte.x00; Byte.x00; Byte.x00; Byte.x00; Byte.x00].

(** The first eight bytes of it. *)
Definition eight_bytes : list byte :=
  [Byte.x04; Byte.xd2; Byte.x01; Byte.x00; Byte.x00; Byte.x01;
   Byte.x00; Byte.x00].

(** A header whose four counts are 1, 2, 3 and 4. *)
Definition counts_1234 : list byte :=
  [Byte.x00; Byte.x00; Byte.x00; Byte.x00; Byte.x00; Byte.x01;
   Byte.x00; Byte.x02; Byte.x00; Byte.x03; Byte.x00; Byte.x04].

(** The answer record with a declared length of 5 for its 4 data bytes. *)
Definition mismatched : DNSRecord :=
  {| r_Name := codecrafters_io; r_Type := 1; r_Class := 1; r_TTL := 60;
     r_Len := 5; r_Data := [Byte.x08; Byte.x08; Byte.x08; Byte.x08] |}.

(** A query with ID 0 and one question, and one that announces two. *)
Definition query_id0 : list byte :=
  [Byte.x00; Byte.x00; Byte.x01; Byte.x00; Byte.x00; Byte.x01;
   Byte.x00; Byte.x00; Byte.x00; Byte.x00; Byte.x00; Byte.x00].

Definition query_two_questions : list byte :=
  [Byte.x04; Byte.xd2; Byte.x01; Byte.x00; Byte.x00; Byte.x02;
   Byte.x00; Byte.x00; Byte.x00; Byte.x00; Byte.x00; Byte.x00].

(** The query of [scenario_bytes] with AA, RA, the reserved bits and a
    result code set, and other counts after the question count. *)
Definition query_other_flags : list byte :=
  [Byte.x04; Byte.xd2; Byte.x05; Byte.x8f; Byte.x00; Byte.x01;
   Byte.x00; Byte.x07; Byte.x00; Byte.x03; Byte.xff; Byte.xff; Byte.x2a].

(** ** The server loop *)

(** [func main()] is the same text in both files; only the
    [HandleReceivedData] it calls differs.  The network is the environment
    of the loop: whether the address resolves and the socket binds, and the
    results of the successive calls of [ReadFromUDP], each datagram with the
    outcome of the [WriteToUDP] that answers it.  What [main] does is the
    trace of its calls that reach the outside. *)

(** [net.UDPAddr]. *)
Record UDPAddr := { IP : list byte; Port : Z; Zone : list byte }.

Inductive arrival :=
| ReadError
| Datagram (source : UDPAddr) (payload : list byte) (sent : bool).

Record network := {
  resolves : bool;          (* [net.ResolveUDPAddr] returns no error *)
  binds : bool;             (* [net.ListenUDP] returns no error *)
  arrivals : list arrival
}.

Inductive event :=
| Println_resolve_failed    (* "Failed to resolve UDP address:" *)
| Println_bind_failed       (* "Failed to bind to address:" *)
| Println_receive_error     (* "Error receiving data:" *)
| Printf_received (size : nat) (source : UDPAddr) (receivedData : list byte)
| WriteToUDP (response : list byte) (source : UDPAddr)
| Println_send_failed       (* "Failed to send response:" *)
| Close.                    (* the deferred [udpConn.Close()] *)

(** How far [main] got on the arrivals given: it returned, it panicked, or
    it waits in [ReadFromUDP] for the next datagram. *)
Inductive status :=
| Returned
| Panicked (p : panic)
| Receiving.

(** [udpConn.ReadFromUDP(buf)]: the payload is copied into [buf], as much
    of it as fits; the number of bytes copied is returned. *)
Definition ReadFromUDP (buf payload : list byte) : nat * list byte :=
  let size := Nat.min (length payload) (length buf) in
  (size, take size payload ++ drop size buf).

Section Loop.
Variable handle : list byte -> outcome (list byte).

(** The [for] loop of [main], on the arrivals that are left. *)
Fixpoint loop (buf : list byte) (net : list arrival) : list event * status :=
  match net with
  | [] => ([], Receiving)
  | ReadError :: _ => ([Println_receive_error], Returned)
  | Datagram source payload sent :: net =>
      let '(size, buf) := ReadFromUDP buf payload in
      match slice_expr buf 0 size with
      | Panic p => ([], Panicked p)
      | Ok receivedData =>
          match handle receivedData with
          | Panic p => ([Printf_received size source receivedData], Panicked p)
          | Ok response =>
              let '(trace, st) := loop buf net in
              (Printf_received size source receivedData
                 :: WriteToUDP response source
                 :: (if sent then [] else [Println_send_failed]) ++ trace,
               st)
          end
      end
  end.

Definition main_with (env : network) : list event * status :=
  if negb (resolves env) then ([Println_resolve_failed], Returned)
  else if negb (binds env) then ([Println_bind_failed], Returned)
  else
    let buf := make 512 in
    let '(trace, st) := loop buf (arrivals env) in
    (trace ++ match st with Receiving => [] | _ => [Close] end, st).

End Loop.

(** [func main()] of the parsing server. *)
Definition main : network -> list event * status :=
  main_with HandleReceivedData.

(** [func main()] of [src/app/main.go]. *)
Definition App_main : network -> list event * status :=
  main_with (fun data => Ok (App.HandleReceivedData data)).

(** The datagrams read before the first read error. *)
Fixpoint served (net : list arrival) : list (UDPAddr * list byte) :=
  match net with
  | Datagram source payload _ :: net => (source, payload) :: served net
  | _ => []
  end.

(** The datagrams a trace sends. *)
Fixpoint writes (trace : list event) : list (list byte * UDPAddr) :=
  match trace with
  | [] => []
  | WriteToUDP response source :: trace => (response, source) :: writes trace
  | _ :: trace => writes trace
  end.

(** The requests a trace logs. *)
Fixpoint requests (trace : list event) : list (UDPAddr * list byte) :=
  match trace with
  | [] => []
  | Printf_received _ source data :: trace => (source, data) :: requests trace
  | _ :: trace => requests trace
  end.

Definition read_fails (net : list arrival) : bool :=
  existsb (fun a => match a with ReadError => true | _ => false end) net.

(** A request is answered as its first 512 bytes are handled, to the
    address it came from. *)
Definition answers (handle : list byte -> outcome (list byte))
    (w : list byte * UDPAddr) (a : UDPAddr * list byte) : Prop :=
  snd w = fst a /\ handle (take 512 (snd a)) = Ok (fst w).

(** Two clients and three datagrams, the second longer than the buffer and
    its answer not sent, then a read error. *)
Definition client_a : UDPAddr :=
  {| IP := [Byte.x7f; Byte.x00; Byte.x00; Byte.x01]; Port := 40000; Zone := [] |}.
Definition client_b : UDPAddr :=
  {| IP := [Byte.x0a; Byte.x00; Byte.x00; Byte.x02]; Port := 5353; Zone := [] |}.

Definition busy_network : network :=
  {| resolves := true; binds := true;
     arrivals :=
       [Datagram client_a scenario_bytes true;
        Datagram client_b (query_two_questions ++ replicate 600 Byte.xff) false;
        Datagram client_a eight_bytes true;
        ReadError;
        Datagram client_b scenario_bytes true] |}.

(** * Properties *)

(** ** Bytes and big-endian words *)

Lemma Z_of_byte_range (b : byte) : 0 <= Z_of_byte b < 2 ^ 8.
Proof. apply byte.unsigned_range. Qed.

Lemma Z_of_byte_of (v : Z) : Z_of_byte (byte_of v) = v mod 2 ^ 8.
Proof. unfold Z_of_byte, byte_of. now rewrite byte.unsigned_of_Z. Qed.

Lemma byte_of_Z_of_byte (b : byte) : byte_of (Z_of_byte b) = b.
Proof. unfold Z_of_byte, byte_of. apply byte.of_Z_unsigned. Qed.

Lemma testbit_high (x k i : Z) :
  0 <= x < 2 ^ k -> 0 <= k -> k <= i -> Z.testbit x i = false.
Proof.
  intros Hx Hk Hi.
  rewrite <- (Z.mod_small x (2 ^ k)) by assumption.
  apply Z.mod_pow2_bits_high. lia.
Qed.

(** Bitwise equalities: compare bit by bit, bits at negative positions are
    clear. *)
Ltac bits :=
  Z.bitblast; subst;
  repeat match goal with
         | |- context [Z.testbit ?a ?j] => rewrite (Z.testbit_neg_r a j) by lia
         end;
  rewrite ?andb_false_r, ?orb_false_r, ?andb_true_l;
  try reflexivity; try lia.

(** The two bytes written for [v] decode to [v], truncated to 16 bits. *)
Lemma be16_join (v : Z) :
  Z.lor ((v mod 2 ^ 8) mod 2 ^ 8)
        ((Z.shiftl ((Z.shiftr v 8) mod 2 ^ 8) 8) mod 2 ^ 16) = v mod 2 ^ 16.
Proof. Z.bitblast. Qed.

Lemma Uint16_Write16 (v : Z) (rest : list byte) :
  Uint16 (Write16 v ++ rest) = Ok (uint16 v).
Proof.
  cbn [Write16 app Uint16]. rewrite !Z_of_byte_of. unfold uint16.
  f_equal. rewrite <- (be16_join v). now rewrite Z.mod_mod by lia.
Qed.

Lemma uint16_small (v : Z) : 0 <= v < 2 ^ 16 -> uint16 v = v.
Proof. intros H. unfold uint16. now apply Z.mod_small. Qed.

Lemma uint16_range (v : Z) : 0 <= uint16 v < 2 ^ 16.
Proof. unfold uint16. apply Z.mod_pos_bound. lia. Qed.

(** What [Uint16] reads is a 16-bit value. *)
Lemma Uint16_range (b : list byte) (v : Z) :
  Uint16 b = Ok v -> 0 <= v < 2 ^ 16.
Proof.
  destruct b as [|b0 [|b1 rest]]; cbn [Uint16]; try discriminate.
  intros [= <-].
  pose proof (Z_of_byte_range b1) as H1.
  pose proof (uint16_range (Z.shiftl (Z_of_byte b0) 8)) as H0.
  split.
  - apply Z.lor_nonneg. lia.
  - assert (Hb : Z.lor (Z_of_byte b1) (uint16 (Z.shiftl (Z_of_byte b0) 8))
                 = (Z.lor (Z_of_byte b1) (uint16 (Z.shiftl (Z_of_byte b0) 8))) mod 2 ^ 16).
    { rewrite <- (Z.mod_small (Z_of_byte b1) (2 ^ 8)) at 1 2 by assumption.
      unfold uint16. Z.bitblast. }
    rewrite Hb. apply Z.mod_pos_bound. lia.
Qed.

Lemma be16_high (x y : Z) :
  (Z.shiftr (Z.lor (y mod 2 ^ 8) ((Z.shiftl (x mod 2 ^ 8) 8) mod 2 ^ 16)) 8)
    mod 2 ^ 8 = x mod 2 ^ 8.
Proof. bits. Qed.

Lemma be16_low (x y : Z) :
  (Z.lor (y mod 2 ^ 8) ((Z.shiftl (x mod 2 ^ 8) 8) mod 2 ^ 16)) mod 2 ^ 8
  = y mod 2 ^ 8.
Proof. bits. Qed.

(** Writing the two bytes that were read gives them back. *)
Lemma Write16_Uint16 (b0 b1 : byte) (rest : list byte) (v : Z) :
  Uint16 (b0 :: b1 :: rest) = Ok v -> Write16 v = [b0; b1].
Proof.
  cbn [Uint16]. intros [= <-]. unfold Write16, uint16.
  pose proof (Z_of_byte_range b0) as H0.
  pose proof (Z_of_byte_range b1) as H1.
  rewrite <- (Z.mod_small (Z_of_byte b0) (2 ^ 8)) by assumption.
  rewrite <- (Z.mod_small (Z_of_byte b1) (2 ^ 8)) by assumption.
  f_equal; [|f_equal]; unfold byte_of; apply byte.unsigned_inj;
    rewrite byte.unsigned_of_Z; unfold byte.wrap.
  - rewrite be16_high. now apply Z.mod_small.
  - rewrite be16_low. now apply Z.mod_small.
Qed.

(** ** The header codec, byte by byte *)

(** The twelve bytes of [BuildHeader]: four big-endian words, then the four
    bytes that [make] zeroed and no write touches. *)
Lemma BuildHeader_bytes (h : DNSHeader) :
  BuildHeader h =
  Write16 (Id h) ++ Write16 (BuildFlags h) ++ Write16 (Questions h)
    ++ Write16 (Answers h) ++ [Byte.x00; Byte.x00; Byte.x00; Byte.x00].
Proof. reflexivity. Qed.

Lemma BuildHeader_length (h : DNSHeader) : length (BuildHeader h) = 12%nat.
Proof. reflexivity. Qed.

Lemma App_BuildHeader_bytes (h : DNSHeader) :
  App.BuildHeader h =
  Write16 (Id h) ++ Write16 0x8000 ++ Write16 (Questions h)
    ++ Write16 (Answers h) ++ [Byte.x00; Byte.x00; Byte.x00; Byte.x00].
Proof. reflexivity. Qed.

(** [parseHeader] on a buffer that has its first six bytes. *)
Lemma parseHeader_cons (d0 d1 d2 d3 d4 d5 : byte) (rest : list byte) :
  parseHeader (d0 :: d1 :: d2 :: d3 :: d4 :: d5 :: rest) =
  Ok {| Id := Z.lor (Z_of_byte d1) (uint16 (Z.shiftl (Z_of_byte d0) 8));
        Recursion_desired := negb (Z.land (flags_of d2 d3) 0x0100 =? 0);
        Truncated_message := false;
        Authoritative_answer := false;
        Opcode := uint8 (Z.shiftr (Z.land (flags_of d2 d3) 0x7800) 11);
        Response := true;
        Rescode := NOTIMP;
        Checking_disabled := false;
        Authed_data := false;
        Z_ := false;
        Recursion_available := false;
        Questions := Z.lor (Z_of_byte d5) (uint16 (Z.shiftl (Z_of_byte d4) 8));
        Answers := Z.lor (Z_of_byte d5) (uint16 (Z.shiftl (Z_of_byte d4) 8));
        Authoritative_entries := 0;
        Resource_entries := 0 |}.
Proof. reflexivity. Qed.

(** A buffer of six bytes or more, split at its sixth byte. *)
Lemma six_bytes (data : list byte) :
  (6 <= length data)%nat ->
  exists d0 d1 d2 d3 d4 d5 rest, data = d0 :: d1 :: d2 :: d3 :: d4 :: d5 :: rest.
Proof.
  intros H.
  destruct data as [|d0 [|d1 [|d2 [|d3 [|d4 [|d5 rest]]]]]]; cbn in H; try lia.
  now exists d0, d1, d2, d3, d4, d5, rest.
Qed.

(** In the model, [parseHeader] returns exactly on the buffers that hold the
    six bytes its slice expressions name. *)
Lemma parseHeader_returns (data : list byte) :
  returns (parseHeader data) = true <-> (6 <= length data)%nat.
Proof.
  split.
  - destruct data as [|d0 [|d1 [|d2 [|d3 [|d4 [|d5 rest]]]]]]; cbn;
      try discriminate; lia.
  - intros H. destruct (six_bytes data H) as (d0 & d1 & d2 & d3 & d4 & d5 & rest & ->).
    now rewrite parseHeader_cons.
Qed.

(** Below six bytes the first slice expression past the data ends the call
    (see [slice_expr] for the bound the model takes). *)
Lemma parseHeader_short (data : list byte) :
  (length data < 6)%nat -> parseHeader data = Panic SliceBoundsOutOfRange.
Proof.
  destruct data as [|d0 [|d1 [|d2 [|d3 [|d4 [|d5 rest]]]]]]; cbn; try reflexivity; lia.
Qed.

(** ** The flags word *)

Lemma in_bits_spec (k z : Z) : in_bits k z = true <-> 0 <= z < 2 ^ k.
Proof. unfold in_bits. rewrite andb_true_iff, Z.leb_le, Z.ltb_lt. tauto. Qed.

Lemma fits_slots_spec (h : DNSHeader) :
  fits_slots h = true <-> 0 <= Opcode h < 2 ^ 4 /\ 0 <= Rescode h < 2 ^ 4.
Proof. unfold fits_slots. now rewrite andb_true_iff, !in_bits_spec. Qed.

(** Bit [i] of the flags word, for every header: each [|=] of the source
    contributes its own term. *)
Lemma BuildFlags_testbit (h : DNSHeader) (i : Z) :
  0 <= i ->
  Z.testbit (BuildFlags h) i =
    (Response h && (i =? 15))
    || ((i <? 16) && Z.testbit (Opcode h) (i - 11))
    || (Authoritative_answer h && (i =? 10))
    || (Truncated_message h && (i =? 9))
    || (Recursion_desired h && (i =? 8))
    || (Recursion_available h && (i =? 7))
    || (Z_ h && (i =? 4))
    || ((i <? 16) && Z.testbit (Rescode h) i).
Proof.
  intros Hi. unfold BuildFlags.
  change (uint16 (Z.shiftl 1 4)) with (2 ^ 4).
  change (uint16 (Z.shiftl 0 4)) with 0.
  change 0x8000 with (2 ^ 15). change 0x0400 with (2 ^ 10).
  change 0x0200 with (2 ^ 9). change 0x0100 with (2 ^ 8).
  change 0x0080 with (2 ^ 7).
  unfold uint16.
  destruct (Response h), (Authoritative_answer h), (Truncated_message h),
    (Recursion_desired h), (Recursion_available h), (Z_ h); cbn [Bool.eqb andb orb].
  all: rewrite ?Z.lor_spec, ?Z.testbit_0_l, ?Z.pow2_bits_eqb by lia.
  all: rewrite !Z.testbit_mod_pow2, Z.shiftl_spec by lia.
  all: rewrite Z.testbit_mod_pow2 by lia.
  all: rewrite ?(Z.eqb_sym _ i).
  all: destruct (Z.ltb_spec i 16), (Z.ltb_spec (i - 11) 16); try lia.
  all: cbn [andb orb]; btauto.
Qed.

(** Settle the comparisons of a goal that linear arithmetic decides. *)
Ltac decide_tests :=
  repeat match goal with
         | |- context [?a =? ?b] =>
             first [ rewrite (proj2 (Z.eqb_eq a b)) by lia
                   | rewrite (proj2 (Z.eqb_neq a b)) by lia ]
         | |- context [?a <? ?b] =>
             first [ rewrite (proj2 (Z.ltb_lt a b)) by lia
                   | rewrite (proj2 (Z.ltb_ge a b)) by lia ]
         end.

(** Clear the bits that lie above a four-bit value or below bit 0. *)
Ltac clear_bits H :=
  repeat match goal with
         | |- context [Z.testbit ?a ?j] =>
             first [ rewrite (testbit_high a 4 j H) by lia
                   | rewrite (Z.testbit_neg_r a j) by lia ]
         end.

Ltac bool_norm :=
  cbn [andb orb negb];
  rewrite ?andb_false_r, ?andb_true_r, ?orb_false_r, ?orb_true_r;
  cbn [andb orb negb].

(** The flags word is a 16-bit value, whatever the header holds. *)
Lemma BuildFlags_range (h : DNSHeader) : 0 <= BuildFlags h < 2 ^ 16.
Proof.
  assert (E : BuildFlags h = BuildFlags h mod 2 ^ 16).
  { apply Z.bits_inj'. intros i Hi.
    rewrite Z.testbit_mod_pow2, BuildFlags_testbit by lia.
    destruct (Z.ltb_spec i 16) as [Hlt|Hge]; [reflexivity|].
    decide_tests. now bool_norm. }
  rewrite E. apply Z.mod_pos_bound. lia.
Qed.

Section Layout.
Variable h : DNSHeader.
Hypothesis Hfits : fits_slots h = true.

Let Hop : 0 <= Opcode h < 2 ^ 4 := proj1 (proj1 (fits_slots_spec h) Hfits).
Let Hrc : 0 <= Rescode h < 2 ^ 4 := proj2 (proj1 (fits_slots_spec h) Hfits).

Ltac one_bit :=
  rewrite BuildFlags_testbit by lia;
  clear_bits Hop; clear_bits Hrc; decide_tests; bool_norm;
  try reflexivity.

Lemma flag_QR : Z.testbit (BuildFlags h) 15 = Response h.
Proof. one_bit. Qed.

Lemma flag_AA : Z.testbit (BuildFlags h) 10 = Authoritative_answer h.
Proof. one_bit. Qed.

Lemma flag_TC : Z.testbit (BuildFlags h) 9 = Truncated_message h.
Proof. one_bit. Qed.

Lemma flag_RD : Z.testbit (BuildFlags h) 8 = Recursion_desired h.
Proof. one_bit. Qed.

Lemma flag_RA : Z.testbit (BuildFlags h) 7 = Recursion_available h.
Proof. one_bit. Qed.

Lemma flag_bit6 : Z.testbit (BuildFlags h) 6 = false.
Proof. one_bit. Qed.

Lemma flag_bit5 : Z.testbit (BuildFlags h) 5 = false.
Proof. one_bit. Qed.

Lemma flag_Z : Z.testbit (BuildFlags h) 4 = Z_ h.
Proof. one_bit. Qed.

Lemma flag_Opcode : Z.land (Z.shiftr (BuildFlags h) 11) 0xF = Opcode h.
Proof.
  apply Z.bits_inj'. intros i Hi.
  change 0xF with (Z.ones 4).
  rewrite Z.land_spec, Z.shiftr_spec, Z.testbit_ones_nonneg by lia.
  rewrite BuildFlags_testbit by lia.
  replace (i + 11 - 11) with i by lia.
  destruct (Z.ltb_spec i 4) as [Hlt|Hge].
  - clear_bits Hrc. decide_tests. now bool_norm.
  - clear_bits Hop. now bool_norm.
Qed.

Lemma flag_Rescode : Z.land (BuildFlags h) 0xF = Rescode h.
Proof.
  apply Z.bits_inj'. intros i Hi.
  change 0xF with (Z.ones 4).
  rewrite Z.land_spec, Z.testbit_ones_nonneg by lia.
  rewrite BuildFlags_testbit by lia.
  destruct (Z.ltb_spec i 4) as [Hlt|Hge].
  - clear_bits Hop. decide_tests. now bool_norm.
  - clear_bits Hrc. now bool_norm.
Qed.

End Layout.

(** *** C3: the bit positions of the flags word *)

(** C3, as amended.  For every header whose opcode and result code fit their
    four-bit slots, the flags word [BuildFlags] produces has QR at bit 15,
    the opcode in bits 14-11, AA at bit 10, TC at bit 9, RD at bit 8, RA at
    bit 7, the result code in bits 3-0, and the Z flag at bit 4 (not at
    bit 6); bits 5 and 6 are always zero. *)
Theorem BuildFlags_layout (h : DNSHeader) :
  fits_slots h = true ->
  let flags := BuildFlags h in
  0 <= flags < 2 ^ 16
  /\ Z.testbit flags 15 = Response h
  /\ Z.land (Z.shiftr flags 11) 0xF = Opcode h
  /\ Z.testbit flags 10 = Authoritative_answer h
  /\ Z.testbit flags 9 = Truncated_message h
  /\ Z.testbit flags 8 = Recursion_desired h
  /\ Z.testbit flags 7 = Recursion_available h
  /\ Z.testbit flags 6 = false
  /\ Z.testbit flags 5 = false
  /\ Z.testbit flags 4 = Z_ h
  /\ Z.land flags 0xF = Rescode h.
Proof.
  intros Hfits flags. subst flags.
  split; [apply BuildFlags_range|].
  repeat split.
  - now apply flag_QR.
  - now apply flag_Opcode.
  - now apply flag_AA.
  - now apply flag_TC.
  - now apply flag_RD.
  - now apply flag_RA.
  - now apply flag_bit6.
  - now apply flag_bit5.
  - now apply flag_Z.
  - now apply flag_Rescode.
Qed.

Lemma BuildFlags_layout_witness :
  fits_slots all_flags = true
  /\ BuildFlags all_flags = 0x9795
  /\ Z.testbit (BuildFlags all_flags) 4 = Z_ all_flags
  /\ Z.testbit (BuildFlags all_flags) 6 = false.
Proof.
  assert (Hfits : fits_slots all_flags = true) by reflexivity.
  pose proof (BuildFlags_layout all_flags Hfits) as L. cbv zeta in L.
  split; [exact Hfits|]. split; [reflexivity|].
  split; [apply L|apply L].
Defined.

(** C3, counterexample.  The layout with Z at bit 6 and bits 4-5 zero fails
    on the default header with its Z flag set: the flags word is [0x0010].
    And without the bound on the opcode no layout holds for every header:
    the opcode 16, a [uint8], is shifted into the QR bit. *)
Lemma BuildFlags_Z_is_bit4 :
  let h := set_Z true NewDNSHeader in
  let flags := BuildFlags h in
  fits_slots h = true
  /\ flags = 0x0010
  /\ Z.testbit flags 6 <> Z_ h
  /\ Z.testbit flags 4 <> false
  /\ Z.testbit (BuildFlags (set_Opcode 16 NewDNSHeader)) 15
     <> Response (set_Opcode 16 NewDNSHeader).
Proof. cbv zeta. repeat split; vm_compute; discriminate. Qed.

(** ** Decoding what was encoded *)

Lemma valid_header_spec (h : DNSHeader) :
  valid_header h = true ->
  0 <= Id h < 2 ^ 16 /\ fits_slots h = true /\ 0 <= Questions h < 2 ^ 16.
Proof.
  unfold valid_header. rewrite !andb_true_iff, !in_bits_spec. tauto.
Qed.

(** Reading the two bytes [PutUint16] wrote. *)
Lemma read_written (v : Z) :
  Z.lor (Z_of_byte (byte_of v))
        (uint16 (Z.shiftl (Z_of_byte (byte_of (Z.shiftr v 8))) 8)) = uint16 v.
Proof.
  pose proof (Uint16_Write16 v []) as H. cbn [Write16 app Uint16] in H.
  now injection H.
Qed.

(** The mask-and-shift of [parseHeader] selects bits 14-11. *)
Lemma opcode_field (flags : Z) :
  Z.shiftr (Z.land flags 0x7800) 11 = Z.land (Z.shiftr flags 11) 0xF.
Proof. now rewrite Z.shiftr_land. Qed.

(** The test [(flags & 0x0100) != 0] is bit 8. *)
Lemma mask_bit (flags n : Z) :
  0 <= n -> negb (Z.land flags (2 ^ n) =? 0) = Z.testbit flags n.
Proof.
  intros Hn. destruct (Z.testbit flags n) eqn:E.
  - assert (H : Z.land flags (2 ^ n) = 2 ^ n).
    { apply Z.bits_inj'. intros i Hi.
      rewrite Z.land_spec, Z.pow2_bits_eqb by lia.
      destruct (Z.eqb_spec n i) as [<-|]; [now rewrite E | apply andb_false_r]. }
    rewrite H. destruct (Z.eqb_spec (2 ^ n) 0) as [H0|]; [|reflexivity].
    pose proof (Z.pow_pos_nonneg 2 n). lia.
  - assert (H : Z.land flags (2 ^ n) = 0).
    { apply Z.bits_inj'. intros i Hi.
      rewrite Z.land_spec, Z.pow2_bits_eqb, Z.testbit_0_l by lia.
      destruct (Z.eqb_spec n i) as [<-|]; [now rewrite E | apply andb_false_r]. }
    now rewrite H.
Qed.

Lemma opcode_range (flags : Z) : 0 <= Z.land (Z.shiftr flags 11) 0xF < 2 ^ 4.
Proof.
  change 0xF with (Z.ones 4). rewrite Z.land_ones by lia.
  apply Z.mod_pos_bound. lia.
Qed.

(** *** C1: decoding an encoded header *)

(** C1, as amended.  For every valid header [H], decoding the twelve bytes
    of [BuildHeader H] succeeds and gives back the identifier, the opcode,
    the recursion-desired flag and the question count of [H]; the other
    flags, the result code and the authority and additional counts are not
    taken from the bytes: the decoded header has Response set, result code
    NOTIMP, AA, TC, RA, Z, CD and AD clear and both counts zero. *)
Theorem parseHeader_BuildHeader (H : DNSHeader) :
  valid_header H = true ->
  exists h,
    parseHeader (BuildHeader H) = Ok h
    /\ Id h = Id H
    /\ Opcode h = Opcode H
    /\ Recursion_desired h = Recursion_desired H
    /\ Questions h = Questions H
    /\ Response h = true
    /\ Rescode h = NOTIMP
    /\ Authoritative_answer h = false
    /\ Truncated_message h = false
    /\ Recursion_available h = false
    /\ Z_ h = false
    /\ Checking_disabled h = false
    /\ Authed_data h = false
    /\ Authoritative_entries h = 0
    /\ Resource_entries h = 0.
Proof.
  intros Hv. destruct (valid_header_spec H Hv) as (Hid & Hfits & Hq).
  rewrite BuildHeader_bytes. unfold Write16 at 1 2 3. cbn [app].
  rewrite parseHeader_cons. eexists. split; [reflexivity|].
  cbn [Id Opcode Recursion_desired Questions Response Rescode
       Authoritative_answer Truncated_message Recursion_available Z_
       Checking_disabled Authed_data Authoritative_entries Resource_entries].
  assert (Hflags : flags_of (byte_of (Z.shiftr (BuildFlags H) 8))
                            (byte_of (BuildFlags H)) = BuildFlags H).
  { unfold flags_of. rewrite read_written.
    apply uint16_small, BuildFlags_range. }
  rewrite Hflags, !read_written, !uint16_small by assumption.
  repeat split.
  - rewrite opcode_field, (flag_Opcode H Hfits).
    apply fits_slots_spec in Hfits. unfold uint8. apply Z.mod_small. lia.
  - change 0x0100 with (2 ^ 8). rewrite mask_bit by lia.
    now apply flag_RD.
Qed.

Lemma parseHeader_BuildHeader_witness :
  valid_header all_flags = true
  /\ exists h,
       parseHeader (BuildHeader all_flags) = Ok h
       /\ Id h = 0xBEEF /\ Opcode h = 2 /\ Recursion_desired h = true
       /\ Questions h = 1 /\ Response h = true /\ Rescode h = NOTIMP.
Proof.
  assert (Hv : valid_header all_flags = true) by reflexivity.
  split; [exact Hv|].
  destruct (parseHeader_BuildHeader all_flags Hv)
    as (h & E & H1 & H2 & H3 & H4 & H5 & H6 & _).
  exists h. repeat split; assumption.
Defined.

(** C1, counterexample.  Decoding the encoding of the default header does
    not give the default header back: the decoded one is a response with result code NOTIMP. *)
Lemma parseHeader_BuildHeader_NewDNSHeader :
  valid_header NewDNSHeader = true
  /\ parseHeader (BuildHeader NewDNSHeader)
     = Ok (set_Rescode NOTIMP (set_Response true NewDNSHeader))
  /\ parseHeader (BuildHeader NewDNSHeader) <> Ok NewDNSHeader.
Proof.
  split; [reflexivity|]. split; [reflexivity|].
  vm_compute. discriminate.
Qed.

(** ** Decoding a request *)

Lemma be16_at_cons (d0 d1 d2 d3 d4 d5 : byte) (rest : list byte) :
  let data := d0 :: d1 :: d2 :: d3 :: d4 :: d5 :: rest in
  be16_at data 0 = Uint16 [d0; d1]
  /\ be16_at data 2 = Uint16 [d2; d3]
  /\ be16_at data 4 = Uint16 [d4; d5].
Proof. cbv zeta. repeat split. Qed.

(** *** C2: short buffers *)

(** C2, as amended.  Header decoding has no [TruncatedHeader] error: on
    every buffer of at least six bytes, so also on one of 6 to 11 bytes such
    as an 8-byte buffer, [parseHeader] returns a header, and that header is
    the one its first six bytes alone decode to: no byte past offset 5 is
    read. *)
Theorem parseHeader_six_bytes (data : list byte) :
  (6 <= length data)%nat ->
  exists h, parseHeader data = Ok h /\ parseHeader (take 6 data) = Ok h.
Proof.
  intros H.
  destruct (six_bytes data H) as (d0 & d1 & d2 & d3 & d4 & d5 & rest & ->).
  cbn [take]. rewrite !parseHeader_cons. eexists. split; reflexivity.
Qed.

Lemma parseHeader_six_bytes_witness :
  (6 <= length eight_bytes)%nat
  /\ exists h, parseHeader eight_bytes = Ok h
             /\ parseHeader (take 6 eight_bytes) = Ok h.
Proof.
  assert (H : (6 <= length eight_bytes)%nat) by (cbn; lia).
  split; [exact H | exact (parseHeader_six_bytes eight_bytes H)].
Defined.

(** C2, counterexample.  A buffer of eight bytes is not refused:
    [parseHeader] returns a header. *)
Lemma parseHeader_eight_bytes :
  (length eight_bytes < 12)%nat
  /\ returns (parseHeader eight_bytes) = true
  /\ parseHeader eight_bytes
     = Ok (set_Rescode NOTIMP (set_Recursion_desired true (set_Response true
            (set_Answers 1 (set_Questions 1 (set_Id 1234 NewDNSHeader)))))).
Proof. repeat split. cbn. lia. Qed.

(** *** C4: the section counts *)

(** C4, as amended.  For every buffer of at least six bytes, [parseHeader]
    reads the question count as the big-endian word at bytes 4-6; the
    authority and additional counts are not read from the buffer at all and
    are zero in every decoded header. *)
Theorem parseHeader_counts (data : list byte) :
  (6 <= length data)%nat ->
  exists h,
    parseHeader data = Ok h
    /\ be16_at data 4 = Ok (Questions h)
    /\ Authoritative_entries h = 0
    /\ Resource_entries h = 0.
Proof.
  intros H.
  destruct (six_bytes data H) as (d0 & d1 & d2 & d3 & d4 & d5 & rest & ->).
  rewrite parseHeader_cons. eexists. split; [reflexivity|].
  repeat split.
Qed.

Lemma parseHeader_counts_witness :
  (6 <= length counts_1234)%nat
  /\ exists h,
       parseHeader counts_1234 = Ok h
       /\ be16_at counts_1234 4 = Ok (Questions h)
       /\ Authoritative_entries h = 0
       /\ Resource_entries h = 0.
Proof.
  assert (H : (6 <= length counts_1234)%nat) by (cbn; lia).
  split; [exact H | exact (parseHeader_counts counts_1234 H)].
Defined.

(** C4, counterexample.  On a header whose words at offsets 6, 8 and 10 are
    2, 3 and 4, the decoded answer, authority and additional counts are 1, 0
    and 0. *)
Lemma parseHeader_counts_1234 :
  exists h,
    parseHeader counts_1234 = Ok h
    /\ be16_at counts_1234 6 = Ok 2 /\ Answers h <> 2
    /\ be16_at counts_1234 8 = Ok 3 /\ Authoritative_entries h <> 3
    /\ be16_at counts_1234 10 = Ok 4 /\ Resource_entries h <> 4.
Proof.
  eexists. split; [reflexivity|].
  repeat split; cbn; discriminate.
Qed.

(** *** C5: the sample query header *)

(** C5, as amended.  The twelve sample bytes decode to ID 1234, QR true (the
    decoder sets it), RD true, opcode 0, result code NOTIMP and question
    count 1; encoding the decoded header gives back bytes 0-1, 4-5 and 8-11
    of the sample, and the flags bytes [0x81 0x04] where the sample has
    [0x01 0x00]. *)
Theorem parseHeader_scenario :
  exists h,
    parseHeader scenario_bytes = Ok h
    /\ Id h = 1234
    /\ Response h = true
    /\ Recursion_desired h = true
    /\ Opcode h = 0
    /\ Rescode h = NOTIMP
    /\ Questions h = 1
    /\ take 2 (BuildHeader h) = take 2 scenario_bytes
    /\ take 2 (drop 2 (BuildHeader h)) = [Byte.x81; Byte.x04]
    /\ take 2 (drop 4 (BuildHeader h)) = take 2 (drop 4 scenario_bytes)
    /\ drop 8 (BuildHeader h) = drop 8 scenario_bytes.
Proof.
  eexists. split; [reflexivity|]. repeat split.
Qed.

(** C5, counterexample.  The sample does not decode to QR false and answer
    count 0, and the
    re-encoded header differs from the sample in the QR bit (byte 2) and in
    the result code (byte 3). *)
Lemma parseHeader_scenario_is_response :
  ~ (exists h,
       parseHeader scenario_bytes = Ok h
       /\ Id h = 1234 /\ Response h = false /\ Recursion_desired h = true
       /\ Questions h = 1 /\ Answers h = 0)
  /\ exists h,
       parseHeader scenario_bytes = Ok h
       /\ BuildHeader h =
          [Byte.x04; Byte.xd2; Byte.x81; Byte.x04; Byte.x00; Byte.x01;
           Byte.x00; Byte.x01; Byte.x00; Byte.x00; Byte.x00; Byte.x00].
Proof.
  split.
  - intros (h & E & _ & HR & _). cbn in E. injection E as <-. discriminate HR.
  - eexists. split; reflexivity.
Qed.

(** *** C10: what the decoder fixes and what it reads *)

(** C10.  For every buffer of at least six bytes, the header [parseHeader]
    returns has Response set, result code NOTIMP, and AA, TC, RA and Z
    clear, whatever the buffer holds; the identifier is the word at bytes
    0-2, the opcode is bits 14-11 and RD is bit 8 of the word at bytes 2-4,
    and the question and answer counts are the word at bytes 4-6; the
    remaining fields keep the defaults of [NewDNSHeader]. *)
Theorem parseHeader_fields (data : list byte) :
  (6 <= length data)%nat ->
  exists h flags,
    parseHeader data = Ok h
    /\ Response h = true
    /\ Rescode h = NOTIMP
    /\ Authoritative_answer h = false
    /\ Truncated_message h = false
    /\ Recursion_available h = false
    /\ Z_ h = false
    /\ be16_at data 0 = Ok (Id h)
    /\ be16_at data 2 = Ok flags
    /\ Opcode h = Z.land (Z.shiftr flags 11) 0xF
    /\ Recursion_desired h = Z.testbit flags 8
    /\ be16_at data 4 = Ok (Questions h)
    /\ be16_at data 4 = Ok (Answers h)
    /\ Checking_disabled h = false
    /\ Authed_data h = false
    /\ Authoritative_entries h = 0
    /\ Resource_entries h = 0.
Proof.
  intros H.
  destruct (six_bytes data H) as (d0 & d1 & d2 & d3 & d4 & d5 & rest & ->).
  rewrite parseHeader_cons. eexists. exists (flags_of d2 d3).
  split; [reflexivity|].
  cbn [Id Opcode Recursion_desired Questions Answers Response Rescode
       Authoritative_answer Truncated_message Recursion_available Z_
       Checking_disabled Authed_data Authoritative_entries Resource_entries].
  repeat split.
  - rewrite opcode_field. unfold uint8. apply Z.mod_small.
    pose proof (opcode_range (flags_of d2 d3)). lia.
  - change 0x0100 with (2 ^ 8). apply mask_bit. lia.
Qed.

Lemma parseHeader_fields_witness :
  (6 <= length scenario_bytes)%nat
  /\ exists h,
       parseHeader scenario_bytes = Ok h
       /\ Response h = true /\ Rescode h = NOTIMP /\ Z_ h = false.
Proof.
  assert (H : (6 <= length scenario_bytes)%nat) by (cbn; lia).
  split; [exact H|].
  destruct (parseHeader_fields scenario_bytes H)
    as (h & flags & E & H1 & H2 & _ & _ & _ & H3 & _).
  exists h. repeat split; assumption.
Defined.

(** ** The section encoders *)

Lemma Write16_length (v : Z) : length (Write16 v) = 2%nat.
Proof. reflexivity. Qed.

Lemma Write32_length (v : Z) : length (Write32 v) = 4%nat.
Proof. reflexivity. Qed.

Lemma BuildAnswer_bytes (r : DNSRecord) :
  BuildAnswer r =
  r_Name r ++ Write16 (r_Type r) ++ Write16 (r_Class r) ++ Write32 (r_TTL r)
    ++ Write16 (r_Len r) ++ r_Data r.
Proof. unfold BuildAnswer. cbn [app]. now rewrite <- !app_assoc. Qed.

Lemma BuildQuestion_bytes (q : Question) :
  BuildQuestion q = q_Name q ++ Write16 (q_Type q) ++ Write16 (q_Class q).
Proof. unfold BuildQuestion. cbn [app]. now rewrite <- !app_assoc. Qed.

(** *** C7: the length of an encoded record *)

(** C7, as amended.  For every record [r], [BuildAnswer r] is a byte
    sequence of length [len(Name) + 2 + 2 + 4 + 2 + len(Data)]; the encoder
    never fails: it writes the declared [Len] as the big-endian word that
    follows the TTL, whether or not it equals the number of data bytes. *)
Theorem BuildAnswer_length (r : DNSRecord) :
  length (BuildAnswer r)
  = (length (r_Name r) + 2 + 2 + 4 + 2 + length (r_Data r))%nat
  /\ be16_at (BuildAnswer r) (length (r_Name r) + 8) = Ok (uint16 (r_Len r))
  /\ drop (length (r_Name r) + 10) (BuildAnswer r) = r_Data r.
Proof.
  rewrite BuildAnswer_bytes. split; [|split].
  - rewrite !length_app, !Write16_length, Write32_length. lia.
  - unfold be16_at, slice_expr.
    replace ((length (r_Name r) + 8 <=? length (r_Name r) + 8 + 2)%nat) with true
      by (symmetry; apply Nat.leb_le; lia).
    replace ((length (r_Name r) + 8 + 2 <=? _)%nat) with true
      by (symmetry; apply Nat.leb_le;
          rewrite !length_app, !Write16_length, Write32_length; lia).
    cbn [andb bind].
    rewrite drop_app_add'
      by reflexivity.
    cbn [Write16 Write32 app drop].
    replace (length (r_Name r) + 8 + 2 - (length (r_Name r) + 8))%nat with 2%nat by lia.
    cbn [take Uint16]. now rewrite read_written.
  - rewrite drop_app_add' by reflexivity. reflexivity.
Qed.

(** C7, counterexample.  A record that declares 5 data bytes and carries 4
    is encoded all the same, in 31 bytes, with the 5 in its length field. *)
Lemma BuildAnswer_mismatched :
  r_Len mismatched <> Z.of_nat (length (r_Data mismatched))
  /\ BuildAnswer mismatched =
     codecrafters_io
       ++ [Byte.x00; Byte.x01; Byte.x00; Byte.x01;
           Byte.x00; Byte.x00; Byte.x00; Byte.x3c;
           Byte.x00; Byte.x05; Byte.x08; Byte.x08; Byte.x08; Byte.x08].
Proof. split; [discriminate | reflexivity]. Qed.

(** ** The pipelines *)

(** The header words of a response, read back. *)
Lemma be16_at_words (a b c d : Z) (tail : list byte) :
  let resp := Write16 a ++ Write16 b ++ Write16 c ++ Write16 d ++ tail in
  be16_at resp 0 = Ok (uint16 a)
  /\ be16_at resp 2 = Ok (uint16 b)
  /\ be16_at resp 4 = Ok (uint16 c)
  /\ be16_at resp 6 = Ok (uint16 d).
Proof.
  cbv zeta. unfold be16_at, slice_expr.
  cbn [Write16 app length Nat.add Nat.leb andb bind drop take Nat.sub Uint16].
  now rewrite !read_written.
Qed.

(** The response of the parsing server: the encoded header, then one
    question and one answer. *)
Lemma HandleReceivedData_eq (data : list byte) :
  HandleReceivedData data =
  do header <- parseHeader data;
  Ok (BuildHeader header ++ BuildQuestion question ++ BuildAnswer answer).
Proof.
  unfold HandleReceivedData. destruct (parseHeader data); cbn [bind]; [|reflexivity].
  now rewrite <- app_assoc.
Qed.

Lemma App_HandleReceivedData_eq (data : list byte) :
  App.HandleReceivedData data =
  App.BuildHeader (set_Answers 1 (set_Questions 1 (set_Id 1234 NewDNSHeader)))
    ++ BuildQuestion question ++ BuildAnswer answer.
Proof. unfold App.HandleReceivedData. now rewrite <- app_assoc. Qed.

(** *** C6: the identifier of the response *)

(** C6, as amended.  In the server that decodes the request, every datagram
    of at least six bytes gets a response whose first two bytes, the
    big-endian identifier, are those of the request.  The server of
    [src/app/main.go] does not decode the request: the identifier of its
    response is 1234 for every datagram. *)
Theorem response_Id :
  (forall data : list byte,
      (6 <= length data)%nat ->
      exists resp,
        HandleReceivedData data = Ok resp
        /\ take 2 resp = take 2 data
        /\ be16_at resp 0 = be16_at data 0)
  /\ (forall data : list byte,
         be16_at (App.HandleReceivedData data) 0 = Ok 1234).
Proof.
  split.
  - intros data H.
    destruct (six_bytes data H) as (d0 & d1 & d2 & d3 & d4 & d5 & rest & ->).
    rewrite HandleReceivedData_eq, parseHeader_cons. cbn [bind].
    eexists. split; [reflexivity|].
    rewrite BuildHeader_bytes. cbn [Id].
    rewrite (Write16_Uint16 d0 d1 [] _ eq_refl).
    split; reflexivity.
  - intros data. reflexivity.
Qed.

Lemma response_Id_witness :
  (6 <= length scenario_bytes)%nat
  /\ exists resp,
       HandleReceivedData scenario_bytes = Ok resp
       /\ take 2 resp = [Byte.x04; Byte.xd2]
       /\ be16_at resp 0 = Ok 1234.
Proof.
  assert (H : (6 <= length scenario_bytes)%nat) by (cbn; lia).
  split; [exact H|].
  destruct (proj1 response_Id scenario_bytes H) as (resp & E & Ht & Hid).
  exists resp. repeat split; assumption.
Defined.

(** C6, counterexample.  The pipeline of [src/app/main.go] answers a query
    whose identifier is 0 with the identifier 1234. *)
Lemma App_response_Id_fixed :
  returns (parseHeader query_id0) = true
  /\ be16_at query_id0 0 = Ok 0
  /\ be16_at (App.HandleReceivedData query_id0) 0 = Ok 1234
  /\ be16_at (App.HandleReceivedData query_id0) 0 <> be16_at query_id0 0.
Proof. repeat split. cbn. discriminate. Qed.

(** *** C8: the counts of the response header *)

(** C8, as amended.  On every datagram of at least six bytes the parsing
    server serializes, after the header, exactly one question and one answer
    and no authority or additional record.  The authority and additional
    counts it writes (offsets 8-10 and 10-12) are zero, the numbers
    serialized; the question count at offset 4-6 and the answer count at
    offset 6-8 are the counts of the decoded request header, the question
    count being the word at bytes 4-6 of the request: it equals the number
    of questions serialized exactly when the request announces one
    question. *)
Theorem response_counts (data : list byte) :
  (6 <= length data)%nat ->
  exists h resp,
    parseHeader data = Ok h
    /\ HandleReceivedData data = Ok resp
    /\ resp = BuildHeader h
                ++ concat (map BuildQuestion [question])
                ++ concat (map BuildAnswer [answer])
                ++ concat (map BuildAnswer [])
                ++ concat (map BuildAnswer [])
    /\ be16_at resp 4 = Ok (Questions h)
    /\ be16_at resp 4 = be16_at data 4
    /\ be16_at resp 6 = Ok (Answers h)
    /\ be16_at resp 8 = Ok 0
    /\ be16_at resp 10 = Ok 0
    /\ (Questions h = Z.of_nat (length [question]) <-> be16_at data 4 = Ok 1).
Proof.
  intros H.
  destruct (six_bytes data H) as (d0 & d1 & d2 & d3 & d4 & d5 & rest & ->).
  rewrite HandleReceivedData_eq, parseHeader_cons. cbn [bind].
  eexists. eexists. split; [reflexivity|]. split; [reflexivity|].
  cbn [Questions Answers map concat]. rewrite !app_nil_r.
  split; [reflexivity|].
  rewrite BuildHeader_bytes, <- !app_assoc. cbn [Id Questions Answers].
  set (qd := Z.lor (Z_of_byte d5) (uint16 (Z.shiftl (Z_of_byte d4) 8))).
  assert (Hqd : Uint16 [d4; d5] = Ok qd) by reflexivity.
  pose proof (Uint16_range _ _ Hqd) as Rqd.
  match goal with
  | |- context [Write16 ?a ++ Write16 ?b ++ Write16 qd ++ Write16 qd ++ ?t] =>
      destruct (be16_at_words a b qd qd t) as (_ & _ & H4 & H6)
  end.
  destruct (be16_at_cons d0 d1 d2 d3 d4 d5 rest) as (_ & _ & E4).
  cbv zeta in E4. rewrite H4, H6, E4, Hqd.
  clearbody qd. rewrite (uint16_small qd Rqd).
  repeat split; try reflexivity.
  - intros E. cbn in E. now rewrite E.
  - intros [= E]. exact E.
Qed.

Lemma response_counts_witness :
  (6 <= length scenario_bytes)%nat
  /\ exists resp,
       HandleReceivedData scenario_bytes = Ok resp
       /\ be16_at resp 4 = Ok 1
       /\ be16_at resp 8 = Ok 0
       /\ be16_at resp 10 = Ok 0.
Proof.
  assert (H : (6 <= length scenario_bytes)%nat) by (cbn; lia).
  split; [exact H|].
  destruct (response_counts scenario_bytes H)
    as (h & resp & _ & E & _ & _ & H4 & _ & H8 & H10 & _).
  exists resp. repeat split; assumption.
Defined.

(** C8, counterexample.  A query that announces two questions is answered
    with a header that counts two questions, in front of the one question serialized. *)
Lemma response_counts_two_questions :
  exists h resp,
    parseHeader query_two_questions = Ok h
    /\ HandleReceivedData query_two_questions = Ok resp
    /\ resp = BuildHeader h ++ concat (map BuildQuestion [question])
                ++ concat (map BuildAnswer [answer])
    /\ be16_at resp 4 = Ok 2
    /\ 2 <> Z.of_nat (length [question]).
Proof.
  eexists. eexists. split; [reflexivity|]. split; [reflexivity|].
  repeat split. cbn. discriminate.
Qed.

(** The counts of [src/app/main.go]: one question, one answer, nothing
    else, as serialized. *)
Lemma App_response_counts (data : list byte) :
  let resp := App.HandleReceivedData data in
  be16_at resp 4 = Ok 1 /\ be16_at resp 6 = Ok 1
  /\ be16_at resp 8 = Ok 0 /\ be16_at resp 10 = Ok 0.
Proof. repeat split. Qed.

(** *** C9: the body of the response *)

(** C9, as amended.  The server of [src/app/main.go] answers every
    datagram, and the parsing server every datagram of at least six bytes,
    with a twelve-byte header followed by the same 52 bytes: the question
    [\x0ccodecrafters\x02io\x00], type 1, class 1, then the record for the
    same name with type 1, class 1, TTL 60, data length 4 and data 8.8.8.8;
    the response is 64 bytes long.  Whenever the parsing server answers at
    all, this is its answer. *)
Theorem response_body :
  let name :=
    [Byte.x0c; Byte.x63; Byte.x6f; Byte.x64; Byte.x65; Byte.x63; Byte.x72;
     Byte.x61; Byte.x66; Byte.x74; Byte.x65; Byte.x72; Byte.x73;
     Byte.x02; Byte.x69; Byte.x6f; Byte.x00] in
  let body :=
    name ++ [Byte.x00; Byte.x01; Byte.x00; Byte.x01]
      ++ name
      ++ [Byte.x00; Byte.x01; Byte.x00; Byte.x01;
          Byte.x00; Byte.x00; Byte.x00; Byte.x3c;
          Byte.x00; Byte.x04; Byte.x08; Byte.x08; Byte.x08; Byte.x08] in
  length body = 52%nat
  /\ (forall data : list byte,
         drop 12 (App.HandleReceivedData data) = body
         /\ length (App.HandleReceivedData data) = 64%nat)
  /\ (forall data : list byte,
         (6 <= length data)%nat ->
         exists resp,
           HandleReceivedData data = Ok resp
           /\ drop 12 resp = body /\ length resp = 64%nat)
  /\ (forall (data resp : list byte),
         HandleReceivedData data = Ok resp ->
         drop 12 resp = body /\ length resp = 64%nat).
Proof.
  cbv zeta. split; [reflexivity|]. split; [|split].
  - intros data. split; reflexivity.
  - intros data H.
    destruct (six_bytes data H) as (d0 & d1 & d2 & d3 & d4 & d5 & rest & ->).
    rewrite HandleReceivedData_eq, parseHeader_cons. cbn [bind].
    eexists. split; [reflexivity|]. split; reflexivity.
  - intros data resp. rewrite HandleReceivedData_eq.
    destruct (parseHeader data) as [h|]; cbn [bind]; [|discriminate].
    intros [= <-]. split; reflexivity.
Qed.

Lemma response_body_witness :
  (6 <= length query_two_questions)%nat
  /\ exists resp,
       HandleReceivedData query_two_questions = Ok resp
       /\ length resp = 64%nat.
Proof.
  assert (H : (6 <= length query_two_questions)%nat) by (cbn; lia).
  pose proof response_body as B. cbv zeta in B.
  destruct B as (_ & _ & Hsix & _).
  split; [exact H|].
  destruct (Hsix query_two_questions H) as (resp & E & _ & Hlen).
  exists resp. split; assumption.
Defined.

(** C9, counterexample.  The empty datagram gets no response from the
    parsing server: the first slice expression of [parseHeader] is out of
    range. *)
Lemma HandleReceivedData_empty :
  HandleReceivedData [] = Panic SliceBoundsOutOfRange
  /\ ~ (exists resp,
         HandleReceivedData [] = Ok resp /\ length resp = 64%nat).
Proof.
  split; [reflexivity|].
  intros (resp & E & _). discriminate E.
Qed.

(** * Further properties of the codec *)

(** ** Headers that [parseHeader] returns *)

(** The header decoded from six bytes, in closed form. *)
Lemma parseHeader_Ok (data : list byte) (h : DNSHeader) :
  parseHeader data = Ok h ->
  exists d0 d1 d2 d3 d4 d5 rest,
    data = d0 :: d1 :: d2 :: d3 :: d4 :: d5 :: rest.
Proof.
  intros E. apply six_bytes, parseHeader_returns. now rewrite E.
Qed.

Lemma parsed_opcode (flags : Z) :
  uint8 (Z.shiftr (Z.land flags 0x7800) 11) = Z.land (Z.shiftr flags 11) 0xF.
Proof.
  rewrite opcode_field. unfold uint8. apply Z.mod_small.
  pose proof (opcode_range flags). lia.
Qed.

Lemma parsed_valid (d0 d1 d2 d3 d4 d5 : byte) (rest : list byte) (h : DNSHeader) :
  parseHeader (d0 :: d1 :: d2 :: d3 :: d4 :: d5 :: rest) = Ok h ->
  valid_header h = true.
Proof.
  rewrite parseHeader_cons. intros [= <-].
  unfold valid_header, fits_slots.
  cbn [Id Opcode Rescode Questions Answers Authoritative_entries Resource_entries].
  rewrite parsed_opcode, !andb_true_iff, !in_bits_spec.
  pose proof (Uint16_range [d0; d1] _ eq_refl).
  pose proof (Uint16_range [d4; d5] _ eq_refl).
  pose proof (opcode_range (flags_of d2 d3)).
  unfold NOTIMP. repeat split; lia.
Qed.

(** X1.  Every header [parseHeader] returns is in the ranges of the data
    model: a 16-bit identifier, an opcode and a result code of four bits,
    16-bit counts. *)
Theorem parseHeader_valid (data : list byte) (h : DNSHeader) :
  parseHeader data = Ok h -> valid_header h = true.
Proof.
  intros E.
  destruct (parseHeader_Ok data h E) as (d0 & d1 & d2 & d3 & d4 & d5 & rest & ->).
  exact (parsed_valid _ _ _ _ _ _ _ _ E).
Qed.

Lemma parseHeader_valid_witness :
  exists h, parseHeader scenario_bytes = Ok h /\ valid_header h = true.
Proof.
  eexists. split; [reflexivity|].
  exact (parseHeader_valid scenario_bytes _ eq_refl).
Defined.

(** What decoding the encoding of a valid header gives, field by field: the
    answer count that comes back is the question count. *)
Lemma parseHeader_BuildHeader_eq (H : DNSHeader) :
  valid_header H = true ->
  parseHeader (BuildHeader H) =
  Ok {| Id := Id H;
        Recursion_desired := Recursion_desired H;
        Truncated_message := false;
        Authoritative_answer := false;
        Opcode := Opcode H;
        Response := true;
        Rescode := NOTIMP;
        Checking_disabled := false;
        Authed_data := false;
        Z_ := false;
        Recursion_available := false;
        Questions := Questions H;
        Answers := Questions H;
        Authoritative_entries := 0;
        Resource_entries := 0 |}.
Proof.
  intros Hv. destruct (valid_header_spec H Hv) as (Hid & Hfits & Hq).
  rewrite BuildHeader_bytes. unfold Write16 at 1 2 3. cbn [app].
  rewrite parseHeader_cons.
  assert (Hflags : flags_of (byte_of (Z.shiftr (BuildFlags H) 8))
                            (byte_of (BuildFlags H)) = BuildFlags H).
  { unfold flags_of. rewrite read_written.
    apply uint16_small, BuildFlags_range. }
  rewrite Hflags, !read_written, !uint16_small by assumption.
  rewrite parsed_opcode, (flag_Opcode H Hfits).
  change 0x0100 with (2 ^ 8). rewrite mask_bit by lia.
  now rewrite (flag_RD H Hfits).
Qed.

(** X2.  On the headers [parseHeader] returns, encoding and decoding again
    changes nothing: [parseHeader (BuildHeader h) = Ok h]. *)
Theorem parseHeader_BuildHeader_parsed (data : list byte) (h : DNSHeader) :
  parseHeader data = Ok h -> parseHeader (BuildHeader h) = Ok h.
Proof.
  intros E.
  destruct (parseHeader_Ok data h E) as (d0 & d1 & d2 & d3 & d4 & d5 & rest & ->).
  rewrite (parseHeader_BuildHeader_eq h (parsed_valid _ _ _ _ _ _ _ _ E)).
  rewrite parseHeader_cons in E. injection E as <-. reflexivity.
Qed.

Lemma parseHeader_BuildHeader_parsed_witness :
  exists h, parseHeader counts_1234 = Ok h /\ parseHeader (BuildHeader h) = Ok h.
Proof.
  eexists. split; [reflexivity|].
  exact (parseHeader_BuildHeader_parsed counts_1234 _ eq_refl).
Defined.

(** [parseHeader] looks at the first six bytes only. *)
Lemma parseHeader_app (l tail : list byte) :
  (6 <= length l)%nat -> parseHeader (l ++ tail) = parseHeader l.
Proof.
  intros H.
  destruct (six_bytes l H) as (d0 & d1 & d2 & d3 & d4 & d5 & rest & ->).
  cbn [app]. now rewrite !parseHeader_cons.
Qed.

(** ** The pipeline as a function of the request *)

(** X3.  The parsing server answers its own response with that same
    response: if [HandleReceivedData data] is [resp], so is
    [HandleReceivedData resp]. *)
Theorem HandleReceivedData_idempotent (data resp : list byte) :
  HandleReceivedData data = Ok resp -> HandleReceivedData resp = Ok resp.
Proof.
  rewrite HandleReceivedData_eq.
  destruct (parseHeader data) as [h|] eqn:E; cbn [bind]; [|discriminate].
  intros Hr.
  assert (Er : resp = BuildHeader h ++ BuildQuestion question ++ BuildAnswer answer)
    by congruence.
  rewrite Er, HandleReceivedData_eq, parseHeader_app
    by (rewrite BuildHeader_length; lia).
  destruct (parseHeader_Ok data h E) as (d0 & d1 & d2 & d3 & d4 & d5 & rest & ->).
  rewrite (parseHeader_BuildHeader_eq h (parsed_valid _ _ _ _ _ _ _ _ E)).
  rewrite parseHeader_cons in E. injection E as <-. reflexivity.
Qed.

Lemma HandleReceivedData_idempotent_witness :
  exists resp,
    HandleReceivedData query_two_questions = Ok resp
    /\ HandleReceivedData resp = Ok resp.
Proof.
  eexists. split; [reflexivity|].
  exact (HandleReceivedData_idempotent query_two_questions _ eq_refl).
Defined.

(** The flags word of the header decoded from a request whose flags word is
    [flags]: QR and the result code NOTIMP are set, the opcode and RD are
    kept, every other bit is clear. *)
Lemma parsed_flags (d0 d1 d2 d3 d4 d5 : byte) (rest : list byte) (h : DNSHeader) :
  parseHeader (d0 :: d1 :: d2 :: d3 :: d4 :: d5 :: rest) = Ok h ->
  BuildFlags h = Z.lor 0x8004 (Z.land (flags_of d2 d3) 0x7900).
Proof.
  rewrite parseHeader_cons. intros [= <-].
  generalize (flags_of d2 d3). intros f.
  apply Z.bits_inj'. intros i Hi.
  rewrite BuildFlags_testbit by lia.
  cbn [Response Opcode Authoritative_answer Truncated_message
       Recursion_desired Recursion_available Z_ Rescode].
  rewrite parsed_opcode.
  change 0x0100 with (2 ^ 8). rewrite mask_bit by lia.
  change NOTIMP with (2 ^ 2).
  change (Z.land (Z.shiftr f 11) 0xF) with (Z.land (Z.shiftr f 11) (Z.ones 4)).
  change 0x8004 with (Z.lor (2 ^ 15) (2 ^ 2)).
  change 0x7900 with (Z.lor (Z.shiftl (Z.ones 4) 11) (2 ^ 8)).
  rewrite !Z.lor_spec, !Z.land_spec, !Z.lor_spec, Z.shiftr_spec', Z.shiftl_spec',
    !Z.testbit_ones_nonneg', !Z.pow2_bits_eqb by lia.
  replace (i - 11 + 11) with i by lia.
  assert (C : i < 2 \/ i = 2 \/ 2 < i < 8 \/ i = 8 \/ 8 < i < 11
              \/ 11 <= i < 15 \/ i = 15 \/ 15 < i) by lia.
  destruct C as [C|[C|[C|[C|[C|[C|[C|C]]]]]]]; try subst i;
    decide_tests; bool_norm;
    rewrite ?andb_false_r, ?orb_false_r, ?andb_true_r; reflexivity.
Qed.

(** X4.  In every response of the parsing server the flags word is the
    request's flags word with QR and the result code NOTIMP set, the opcode
    and RD kept and every other flag cleared:
    [0x8004 | (flags & 0x7900)]. *)
Theorem response_flags (data : list byte) :
  (6 <= length data)%nat ->
  exists flags resp,
    be16_at data 2 = Ok flags
    /\ HandleReceivedData data = Ok resp
    /\ be16_at resp 2 = Ok (Z.lor 0x8004 (Z.land flags 0x7900)).
Proof.
  intros H.
  destruct (six_bytes data H) as (d0 & d1 & d2 & d3 & d4 & d5 & rest & ->).
  destruct (parseHeader (d0 :: d1 :: d2 :: d3 :: d4 :: d5 :: rest)) as [h|] eqn:E;
    [|now rewrite parseHeader_cons in E].
  exists (flags_of d2 d3). eexists.
  split; [reflexivity|].
  rewrite HandleReceivedData_eq, E. cbn [bind]. split; [reflexivity|].
  rewrite BuildHeader_bytes, <- !app_assoc.
  match goal with
  | |- context [Write16 ?a ++ Write16 ?b ++ Write16 ?c ++ Write16 ?d ++ ?t] =>
      destruct (be16_at_words a b c d t) as (_ & H2 & _)
  end.
  rewrite H2, uint16_small by apply BuildFlags_range.
  now rewrite (parsed_flags _ _ _ _ _ _ _ _ E).
Qed.

Lemma response_flags_witness :
  exists resp,
    HandleReceivedData scenario_bytes = Ok resp
    /\ be16_at resp 2 = Ok 0x8104.
Proof.
  assert (H : (6 <= length scenario_bytes)%nat) by (cbn; lia).
  destruct (response_flags scenario_bytes H) as (flags & resp & Hf & E & Hr).
  exists resp. split; [exact E|].
  cbn in Hf. injection Hf as <-. exact Hr.
Defined.

Lemma kept_bits (f : Z) :
  Z.land f 0x7800 = Z.land (Z.land f 0x7900) 0x7800
  /\ Z.land f 0x0100 = Z.land (Z.land f 0x7900) 0x0100.
Proof. now rewrite <- !Z.land_assoc. Qed.

(** X5.  The response of the parsing server is a function of four things in
    the request: the identifier, the opcode and RD bits of the flags word
    (mask [0x7900]) and the word at bytes 4-6.  Two requests that agree on
    them get the same response, whatever else they hold. *)
Theorem response_determined (d d' : list byte) (f f' : Z) :
  (6 <= length d)%nat ->
  (6 <= length d')%nat ->
  be16_at d 0 = be16_at d' 0 ->
  be16_at d 2 = Ok f ->
  be16_at d' 2 = Ok f' ->
  Z.land f 0x7900 = Z.land f' 0x7900 ->
  be16_at d 4 = be16_at d' 4 ->
  HandleReceivedData d = HandleReceivedData d'.
Proof.
  intros H H' E0 E2 E2' Ef E4.
  destruct (six_bytes d H) as (d0 & d1 & d2 & d3 & d4 & d5 & rest & ->).
  destruct (six_bytes d' H') as (e0 & e1 & e2 & e3 & e4 & e5 & rest' & ->).
  destruct (be16_at_cons d0 d1 d2 d3 d4 d5 rest) as (A0 & A2 & A4).
  destruct (be16_at_cons e0 e1 e2 e3 e4 e5 rest') as (B0 & B2 & B4).
  cbv zeta in *. rewrite A0, B0 in E0. rewrite A2 in E2. rewrite B2 in E2'.
  rewrite A4, B4 in E4. cbn [Uint16] in E0, E2, E2', E4.
  injection E0 as E0. injection E4 as E4.
  injection E2 as E2. injection E2' as E2'.
  rewrite !HandleReceivedData_eq, !parseHeader_cons. unfold flags_of.
  rewrite E0, E4, E2, E2'.
  destruct (kept_bits f) as (-> & ->). destruct (kept_bits f') as (-> & ->).
  now rewrite Ef.
Qed.

Lemma response_determined_witness :
  HandleReceivedData query_other_flags = HandleReceivedData scenario_bytes.
Proof.
  apply (response_determined query_other_flags scenario_bytes 0x058F 0x0100);
    try reflexivity; cbn; lia.
Defined.

(** ** The encoders, read back *)

Lemma valid_header_Answers (h : DNSHeader) :
  valid_header h = true -> 0 <= Answers h < 2 ^ 16.
Proof.
  unfold valid_header. rewrite !andb_true_iff, !in_bits_spec. tauto.
Qed.

Lemma BuildHeader_read (h : DNSHeader) :
  be16_at (BuildHeader h) 0 = Ok (uint16 (Id h))
  /\ be16_at (BuildHeader h) 2 = Ok (BuildFlags h)
  /\ be16_at (BuildHeader h) 4 = Ok (uint16 (Questions h))
  /\ be16_at (BuildHeader h) 6 = Ok (uint16 (Answers h)).
Proof.
  rewrite BuildHeader_bytes.
  destruct (be16_at_words (Id h) (BuildFlags h) (Questions h) (Answers h)
              [Byte.x00; Byte.x00; Byte.x00; Byte.x00]) as (H0 & H2 & H4 & H6).
  cbv zeta in *. rewrite H0, H2, H4, H6.
  now rewrite (uint16_small (BuildFlags h)) by apply BuildFlags_range.
Qed.

(** X6.  The twelve bytes of [BuildHeader], read back as big-endian words,
    are the identifier, the flags word, the question count and the answer
    count of the header at offsets 0, 2, 4 and 6, and zero at offsets 8 and
    10, whatever the header's authority and additional counts. *)
Theorem BuildHeader_words (h : DNSHeader) :
  valid_header h = true ->
  length (BuildHeader h) = 12%nat
  /\ be16_at (BuildHeader h) 0 = Ok (Id h)
  /\ be16_at (BuildHeader h) 2 = Ok (BuildFlags h)
  /\ be16_at (BuildHeader h) 4 = Ok (Questions h)
  /\ be16_at (BuildHeader h) 6 = Ok (Answers h)
  /\ be16_at (BuildHeader h) 8 = Ok 0
  /\ be16_at (BuildHeader h) 10 = Ok 0.
Proof.
  intros Hv. destruct (valid_header_spec h Hv) as (Hid & _ & Hq).
  pose proof (valid_header_Answers h Hv) as Ha.
  destruct (BuildHeader_read h) as (H0 & H2 & H4 & H6).
  rewrite H0, H2, H4, H6, !uint16_small by assumption.
  repeat split.
Qed.

Lemma BuildHeader_words_witness :
  be16_at (BuildHeader all_flags) 0 = Ok 0xBEEF
  /\ be16_at (BuildHeader all_flags) 2 = Ok 0x9795
  /\ be16_at (BuildHeader all_flags) 6 = Ok 1
  /\ be16_at (BuildHeader all_flags) 8 = Ok 0.
Proof.
  assert (Hv : valid_header all_flags = true) by reflexivity.
  destruct (BuildHeader_words all_flags Hv) as (_ & H0 & H2 & _ & H6 & H8 & _).
  repeat split; assumption.
Defined.

(** The flags word determines the eight fields it packs. *)
Lemma flags_fields (h1 h2 : DNSHeader) :
  fits_slots h1 = true -> fits_slots h2 = true ->
  BuildFlags h1 = BuildFlags h2 ->
  Response h1 = Response h2
  /\ Opcode h1 = Opcode h2
  /\ Authoritative_answer h1 = Authoritative_answer h2
  /\ Truncated_message h1 = Truncated_message h2
  /\ Recursion_desired h1 = Recursion_desired h2
  /\ Recursion_available h1 = Recursion_available h2
  /\ Z_ h1 = Z_ h2
  /\ Rescode h1 = Rescode h2.
Proof.
  intros F1 F2 E.
  rewrite <- (flag_QR h1 F1), <- (flag_QR h2 F2).
  rewrite <- (flag_Opcode h1 F1), <- (flag_Opcode h2 F2).
  rewrite <- (flag_AA h1 F1), <- (flag_AA h2 F2).
  rewrite <- (flag_TC h1 F1), <- (flag_TC h2 F2).
  rewrite <- (flag_RD h1 F1), <- (flag_RD h2 F2).
  rewrite <- (flag_RA h1 F1), <- (flag_RA h2 F2).
  rewrite <- (flag_Z h1 F1), <- (flag_Z h2 F2).
  rewrite <- (flag_Rescode h1 F1), <- (flag_Rescode h2 F2).
  rewrite E. repeat split.
Qed.

Lemma fields_flags (h1 h2 : DNSHeader) :
  Response h1 = Response h2 ->
  Opcode h1 = Opcode h2 ->
  Authoritative_answer h1 = Authoritative_answer h2 ->
  Truncated_message h1 = Truncated_message h2 ->
  Recursion_desired h1 = Recursion_desired h2 ->
  Recursion_available h1 = Recursion_available h2 ->
  Z_ h1 = Z_ h2 ->
  Rescode h1 = Rescode h2 ->
  BuildFlags h1 = BuildFlags h2.
Proof.
  intros E1 E2 E3 E4 E5 E6 E7 E8. unfold BuildFlags.
  now rewrite E1, E2, E3, E4, E5, E6, E7, E8.
Qed.

(** X7.  On headers whose opcode and result code fit their slots the flags
    word loses nothing: two headers have the same flags word exactly when
    they agree on QR, opcode, AA, TC, RD, RA, Z and the result code. *)
Theorem BuildFlags_injective (h1 h2 : DNSHeader) :
  fits_slots h1 = true -> fits_slots h2 = true ->
  (BuildFlags h1 = BuildFlags h2 <->
   Response h1 = Response h2
   /\ Opcode h1 = Opcode h2
   /\ Authoritative_answer h1 = Authoritative_answer h2
   /\ Truncated_message h1 = Truncated_message h2
   /\ Recursion_desired h1 = Recursion_desired h2
   /\ Recursion_available h1 = Recursion_available h2
   /\ Z_ h1 = Z_ h2
   /\ Rescode h1 = Rescode h2).
Proof.
  intros F1 F2. split.
  - now apply flags_fields.
  - intros (E1 & E2 & E3 & E4 & E5 & E6 & E7 & E8). now apply fields_flags.
Qed.

Lemma BuildFlags_injective_witness :
  BuildFlags all_flags <> BuildFlags (set_Z false all_flags).
Proof.
  intros E.
  apply (BuildFlags_injective all_flags (set_Z false all_flags)) in E;
    [|reflexivity|reflexivity].
  destruct E as (_ & _ & _ & _ & _ & _ & E & _). discriminate E.
Defined.

(** X8.  [BuildHeader] encodes eleven fields of the header and nothing
    else: two valid headers have the same twelve bytes exactly when they
    agree on the identifier, the eight fields of the flags word and the
    question and answer counts.  The CD and AD flags and the authority and
    additional counts play no part. *)
Theorem BuildHeader_injective (h1 h2 : DNSHeader) :
  valid_header h1 = true -> valid_header h2 = true ->
  (BuildHeader h1 = BuildHeader h2 <->
   Id h1 = Id h2
   /\ Response h1 = Response h2
   /\ Opcode h1 = Opcode h2
   /\ Authoritative_answer h1 = Authoritative_answer h2
   /\ Truncated_message h1 = Truncated_message h2
   /\ Recursion_desired h1 = Recursion_desired h2
   /\ Recursion_available h1 = Recursion_available h2
   /\ Z_ h1 = Z_ h2
   /\ Rescode h1 = Rescode h2
   /\ Questions h1 = Questions h2
   /\ Answers h1 = Answers h2).
Proof.
  intros V1 V2.
  destruct (valid_header_spec h1 V1) as (I1 & F1 & Q1).
  destruct (valid_header_spec h2 V2) as (I2 & F2 & Q2).
  pose proof (valid_header_Answers h1 V1) as A1.
  pose proof (valid_header_Answers h2 V2) as A2.
  split.
  - intros E.
    destruct (BuildHeader_read h1) as (R0 & R2 & R4 & R6).
    destruct (BuildHeader_read h2) as (S0 & S2 & S4 & S6).
    rewrite E in R0, R2, R4, R6.
    rewrite R0 in S0. rewrite R2 in S2. rewrite R4 in S4. rewrite R6 in S6.
    injection S0 as S0. injection S2 as S2. injection S4 as S4. injection S6 as S6.
    rewrite !uint16_small in S0, S4, S6 by assumption.
    split; [exact S0|].
    destruct (flags_fields h1 h2 F1 F2 S2) as (E1 & E2 & E3 & E4 & E5 & E6 & E7 & E8).
    repeat split; assumption.
  - intros (E0 & E1 & E2 & E3 & E4 & E5 & E6 & E7 & E8 & E9 & E10).
    rewrite !BuildHeader_bytes.
    rewrite (fields_flags h1 h2 E1 E2 E3 E4 E5 E6 E7 E8).
    now rewrite E0, E9, E10.
Qed.

Lemma BuildHeader_injective_witness :
  BuildHeader all_flags = BuildHeader
    {| Id := 0xBEEF;
       Recursion_desired := true; Truncated_message := true;
       Authoritative_answer := true; Opcode := 2; Response := true;
       Rescode := REFUSED; Checking_disabled := true; Authed_data := true;
       Z_ := true; Recursion_available := true;
       Questions := 1; Answers := 1;
       Authoritative_entries := 7; Resource_entries := 9 |}.
Proof.
  apply BuildHeader_injective; [reflexivity | reflexivity | repeat split].
Defined.

(** X9.  [BuildQuestion] writes the name as it is, then the type and the
    class as big-endian words: the name is a prefix of the encoding, the two
    words follow it, and the length is that of the name plus four. *)
Theorem BuildQuestion_layout (q : Question) :
  length (BuildQuestion q) = (length (q_Name q) + 4)%nat
  /\ take (length (q_Name q)) (BuildQuestion q) = q_Name q
  /\ be16_at (BuildQuestion q) (length (q_Name q)) = Ok (uint16 (q_Type q))
  /\ be16_at (BuildQuestion q) (length (q_Name q) + 2) = Ok (uint16 (q_Class q)).
Proof.
  rewrite BuildQuestion_bytes. repeat split.
  - rewrite !length_app, !Write16_length. lia.
  - now rewrite take_app_length.
  - unfold be16_at, slice_expr.
    replace ((length (q_Name q) <=? length (q_Name q) + 2)%nat) with true
      by (symmetry; apply Nat.leb_le; lia).
    replace ((length (q_Name q) + 2 <=? _)%nat) with true
      by (symmetry; apply Nat.leb_le; rewrite !length_app, !Write16_length; lia).
    cbn [andb bind].
    rewrite drop_app_length.
    replace (length (q_Name q) + 2 - length (q_Name q))%nat with 2%nat by lia.
    cbn [Write16 app take Uint16]. now rewrite read_written.
  - unfold be16_at, slice_expr.
    replace ((length (q_Name q) + 2 <=? length (q_Name q) + 2 + 2)%nat) with true
      by (symmetry; apply Nat.leb_le; lia).
    replace ((length (q_Name q) + 2 + 2 <=? _)%nat) with true
      by (symmetry; apply Nat.leb_le; rewrite !length_app, !Write16_length; lia).
    cbn [andb bind].
    rewrite drop_app_add' by reflexivity.
    replace (length (q_Name q) + 2 + 2 - (length (q_Name q) + 2))%nat with 2%nat by lia.
    cbn [Write16 app drop take Uint16]. now rewrite read_written.
Qed.

(** The halves of a 32-bit word. *)
Lemma halves (v : Z) :
  uint16 (Z.shiftr v 16) * 2 ^ 16 + uint16 v = uint32 v.
Proof.
  unfold uint16, uint32. rewrite Z.shiftr_div_pow2 by lia.
  change (2 ^ 32) with (2 ^ 16 * 2 ^ 16).
  rewrite Z.rem_mul_r by lia. lia.
Qed.

Lemma Write32_halves (v : Z) :
  Write32 v = Write16 (Z.shiftr v 16) ++ Write16 v.
Proof.
  unfold Write32, Write16. cbn [app].
  now rewrite Z.shiftr_shiftr by lia.
Qed.

(** Reading a word that sits behind a prefix. *)
Lemma be16_at_app (pre l : list byte) (n : nat) :
  (n + 2 <= length l)%nat ->
  be16_at (pre ++ l) (length pre + n) = be16_at l n.
Proof.
  intros H. unfold be16_at, slice_expr.
  replace ((length pre + n <=? length pre + n + 2)%nat) with true
    by (symmetry; apply Nat.leb_le; lia).
  replace ((n <=? n + 2)%nat) with true by (symmetry; apply Nat.leb_le; lia).
  replace ((length pre + n + 2 <=? length (pre ++ l))%nat) with true
    by (symmetry; apply Nat.leb_le; rewrite length_app; lia).
  replace ((n + 2 <=? length l)%nat) with true by (symmetry; apply Nat.leb_le; lia).
  cbn [andb bind]. rewrite drop_app_add' by reflexivity.
  now replace (length pre + n + 2 - (length pre + n))%nat with (n + 2 - n)%nat by lia.
Qed.

(** X10.  [BuildAnswer] writes the name as it is, then the type, the class
    and the TTL big-endian: the name is a prefix of the encoding, the type
    and class words follow it, and the two words after them are the high and
    the low half of the 32-bit TTL. *)
Theorem BuildAnswer_layout (r : DNSRecord) :
  let n := length (r_Name r) in
  take n (BuildAnswer r) = r_Name r
  /\ be16_at (BuildAnswer r) n = Ok (uint16 (r_Type r))
  /\ be16_at (BuildAnswer r) (n + 2) = Ok (uint16 (r_Class r))
  /\ exists hi lo,
       be16_at (BuildAnswer r) (n + 4) = Ok hi
       /\ be16_at (BuildAnswer r) (n + 6) = Ok lo
       /\ hi * 2 ^ 16 + lo = uint32 (r_TTL r).
Proof.
  cbv zeta. rewrite BuildAnswer_bytes, Write32_halves, <- !app_assoc.
  split; [now rewrite take_app_length|].
  set (fixed := Write16 (r_Type r) ++ Write16 (r_Class r)
                  ++ Write16 (Z.shiftr (r_TTL r) 16) ++ Write16 (r_TTL r)
                  ++ Write16 (r_Len r) ++ r_Data r).
  assert (L : (10 <= length fixed)%nat)
    by (unfold fixed; rewrite !length_app, !Write16_length; lia).
  destruct (be16_at_words (r_Type r) (r_Class r) (Z.shiftr (r_TTL r) 16)
              (r_TTL r) (Write16 (r_Len r) ++ r_Data r)) as (H0 & H2 & H4 & H6).
  cbv zeta in *. fold fixed in H0, H2, H4, H6.
  assert (P0 : be16_at (r_Name r ++ fixed) (length (r_Name r)) = be16_at fixed 0).
  { rewrite <- (be16_at_app (r_Name r) fixed 0) by lia. f_equal. lia. }
  rewrite P0, !be16_at_app, H0, H2, H4, H6 by lia.
  split; [reflexivity|]. split; [reflexivity|].
  eexists. eexists. split; [reflexivity|]. split; [reflexivity|].
  apply halves.
Qed.

(** X11.  [BuildFlags] ORs the opcode and the result code in without a
    mask.  For every header, bit 4 of the opcode lands in the QR bit, and
    the bits of the result code above its slot land in the flags of the same
    position: bit 15 is QR or opcode bit 4 or result-code bit 15, bit 8 is
    RD or result-code bit 8, bit 4 is Z or result-code bit 4. *)
Theorem BuildFlags_unmasked (h : DNSHeader) :
  Z.testbit (BuildFlags h) 15
  = Response h || Z.testbit (Opcode h) 4 || Z.testbit (Rescode h) 15
  /\ Z.testbit (BuildFlags h) 8
     = Recursion_desired h || Z.testbit (Rescode h) 8
  /\ Z.testbit (BuildFlags h) 4 = Z_ h || Z.testbit (Rescode h) 4.
Proof.
  repeat split; rewrite BuildFlags_testbit by lia.
  - change (15 - 11) with 4. decide_tests. now bool_norm.
  - rewrite (Z.testbit_neg_r (Opcode h) (8 - 11)) by lia. decide_tests. now bool_norm.
  - rewrite (Z.testbit_neg_r (Opcode h) (4 - 11)) by lia. decide_tests. now bool_norm.
Qed.

(** ** The server loop *)

(** One read into the 512-byte buffer: [buf[:size]] is in range and holds
    the first 512 bytes of the payload, whatever the buffer held before. *)
Lemma ReadFromUDP_received (buf payload : list byte) :
  length buf = 512%nat ->
  slice_expr (snd (ReadFromUDP buf payload)) 0 (fst (ReadFromUDP buf payload))
    = Ok (take 512 payload)
  /\ length (snd (ReadFromUDP buf payload)) = 512%nat.
Proof.
  intros Hb. unfold ReadFromUDP. cbn [fst snd]. rewrite Hb.
  set (size := Nat.min (length payload) 512).
  assert (Hs : (size <= 512)%nat) by (unfold size; lia).
  assert (Hl : length (take size payload) = size)
    by (rewrite length_take; unfold size; lia).
  assert (Hlen : length (take size payload ++ drop size buf) = 512%nat)
    by (rewrite length_app, Hl, length_drop; lia).
  split; [|exact Hlen].
  unfold slice_expr. rewrite Hlen.
  replace ((size <=? 512)%nat) with true by (symmetry; apply Nat.leb_le; lia).
  cbn [Nat.leb andb]. rewrite Nat.sub_0_r. f_equal.
  change (drop 0 (take size payload ++ drop size buf))
    with (take size payload ++ drop size buf).
  rewrite take_app_le by lia.
  rewrite take_take. unfold size.
  destruct (Nat.le_gt_cases (length payload) 512) as [H|H].
  - rewrite !take_ge by lia. reflexivity.
  - f_equal. lia.
Qed.

Lemma writes_app (t1 t2 : list event) : writes (t1 ++ t2) = writes t1 ++ writes t2.
Proof.
  induction t1 as [|e t1 IH]; [reflexivity|].
  destruct e; cbn [app writes]; now rewrite ?IH.
Qed.

Lemma requests_app (t1 t2 : list event) :
  requests (t1 ++ t2) = requests t1 ++ requests t2.
Proof.
  induction t1 as [|e t1 IH]; [reflexivity|].
  destruct e; cbn [app requests]; now rewrite ?IH.
Qed.

(** The loop on a handler that returns on every datagram it is given. *)
Lemma loop_serves (handle : list byte -> outcome (list byte))
    (net : list arrival) (buf : list byte) :
  length buf = 512%nat ->
  Forall (fun a => returns (handle (take 512 (snd a))) = true) (served net) ->
  Forall2 (answers handle) (writes (fst (loop handle buf net))) (served net)
  /\ requests (fst (loop handle buf net))
     = map (fun a => (fst a, take 512 (snd a))) (served net)
  /\ snd (loop handle buf net)
     = if read_fails net then Returned else Receiving.
Proof.
  revert buf. induction net as [|a net IH]; intros buf Hb Hh.
  - cbn. repeat split. constructor.
  - destruct a as [|source payload sent].
    + cbn. repeat split. constructor.
    + cbn [served] in Hh. inversion Hh as [|x l Hx Hl]; subst.
      cbn [snd] in Hx.
      destruct (ReadFromUDP_received buf payload Hb) as (Hs & Hb').
      cbn [loop]. destruct (ReadFromUDP buf payload) as [size buf'].
      cbn [fst snd] in Hs, Hb'. rewrite Hs.
      destruct (handle (take 512 payload)) as [response|] eqn:E;
        [|discriminate Hx].
      specialize (IH buf' Hb' Hl).
      destruct (loop handle buf' net) as [trace st].
      cbn [fst snd] in IH. destruct IH as (IHw & IHr & IHs).
      cbn [fst snd served read_fails existsb orb map].
      cbn [writes requests]. rewrite writes_app, requests_app.
      repeat split.
      * constructor; [|destruct sent; exact IHw]. now split.
      * f_equal. destruct sent; exact IHr.
      * exact IHs.
Qed.

Lemma main_with_serves (handle : list byte -> outcome (list byte)) (env : network) :
  resolves env = true -> binds env = true ->
  Forall (fun a => returns (handle (take 512 (snd a))) = true)
         (served (arrivals env)) ->
  Forall2 (answers handle) (writes (fst (main_with handle env)))
          (served (arrivals env))
  /\ requests (fst (main_with handle env))
     = map (fun a => (fst a, take 512 (snd a))) (served (arrivals env))
  /\ snd (main_with handle env)
     = if read_fails (arrivals env) then Returned else Receiving.
Proof.
  intros Hr Hbd Hh. unfold main_with. rewrite Hr, Hbd. cbn [negb].
  destruct (loop_serves handle (arrivals env) (make 512) eq_refl Hh)
    as (Hw & Hq & Hs).
  destruct (loop handle (make 512) (arrivals env)) as [trace st].
  cbn [fst snd] in *. rewrite writes_app, requests_app.
  replace (writes match st with Receiving => [] | _ => [Close] end) with
    (@nil (list byte * UDPAddr)) by (now destruct st).
  replace (requests match st with Receiving => [] | _ => [Close] end) with
    (@nil (UDPAddr * list byte)) by (now destruct st).
  rewrite !app_nil_r. repeat split; assumption.
Qed.

Lemma HandleReceivedData_returns (data : list byte) :
  (6 <= length data)%nat -> returns (HandleReceivedData data) = true.
Proof.
  intros H.
  destruct (six_bytes data H) as (d0 & d1 & d2 & d3 & d4 & d5 & rest & ->).
  now rewrite HandleReceivedData_eq, parseHeader_cons.
Qed.

Lemma HandleReceivedData_Ok (data resp : list byte) :
  HandleReceivedData data = Ok resp ->
  length resp = 64%nat /\ take 2 resp = take 2 data.
Proof.
  rewrite HandleReceivedData_eq.
  destruct (parseHeader data) as [h|] eqn:E; cbn [bind]; [|discriminate].
  intros Hr.
  assert (Er : resp = BuildHeader h ++ BuildQuestion question ++ BuildAnswer answer)
    by congruence.
  rewrite Er. split; [reflexivity|].
  destruct (parseHeader_Ok data h E) as (d0 & d1 & d2 & d3 & d4 & d5 & rest & ->).
  rewrite parseHeader_cons in E. injection E as <-.
  rewrite BuildHeader_bytes. cbn [Id].
  now rewrite (Write16_Uint16 d0 d1 [] _ eq_refl).
Qed.

(** Cutting a datagram at 512 bytes does not change its response. *)
Lemma HandleReceivedData_take (data : list byte) :
  (6 <= length data)%nat ->
  HandleReceivedData (take 512 data) = HandleReceivedData data.
Proof.
  intros H. rewrite !HandleReceivedData_eq.
  rewrite <- (take_drop 512 data) at 2.
  now rewrite parseHeader_app by (rewrite length_take; lia).
Qed.

Lemma Forall2_answers_map (f : UDPAddr * list byte -> list byte)
    (ws : list (list byte * UDPAddr)) (served : list (UDPAddr * list byte)) :
  Forall2 (answers (fun data => Ok (App.HandleReceivedData data))) ws served ->
  ws = map (fun a => (App.HandleReceivedData (snd a), fst a)) served.
Proof.
  induction 1 as [|w a ws served [Hs Hr] _ IH]; [reflexivity|].
  cbn [map]. rewrite <- IH. f_equal.
  destruct w as [resp src]. cbn [fst snd] in *. subst src.
  injection Hr as <-. reflexivity.
Qed.

(** X12.  The server of [src/app/main.go], once it listens, answers every
    datagram it reads, in the order read and each to the address it came
    from, with [App.HandleReceivedData]; a send that fails does not stop it.
    What it hands to the handler is the first 512 bytes of the datagram,
    whatever earlier datagrams left in the buffer.  It never panics: it
    returns at the first read error and otherwise waits for the next
    datagram. *)
Theorem App_main_serves (env : network) :
  resolves env = true -> binds env = true ->
  writes (fst (App_main env))
    = map (fun a => (App.HandleReceivedData (snd a), fst a))
          (served (arrivals env))
  /\ requests (fst (App_main env))
     = map (fun a => (fst a, take 512 (snd a))) (served (arrivals env))
  /\ snd (App_main env)
     = if read_fails (arrivals env) then Returned else Receiving.
Proof.
  intros Hr Hb.
  destruct (main_with_serves (fun data => Ok (App.HandleReceivedData data))
              env Hr Hb) as (Hw & Hq & Hs).
  { apply Forall_forall. reflexivity. }
  split; [|split; assumption].
  now apply (Forall2_answers_map (fun _ => [])).
Qed.

Lemma App_main_serves_witness :
  snd (App_main busy_network) = Returned
  /\ map snd (writes (fst (App_main busy_network)))
     = [client_a; client_b; client_a]
  /\ map (fun r => length (snd r)) (requests (fst (App_main busy_network)))
     = [12; 512; 8]%nat.
Proof.
  destruct (App_main_serves busy_network eq_refl eq_refl) as (Hw & Hq & Hs).
  split; [exact Hs|]. split.
  - rewrite Hw. reflexivity.
  - rewrite Hq. reflexivity.
Defined.

(** X13.  The parsing server, once it listens and as long as the datagrams
    it reads hold six bytes or more, answers every datagram in the order
    read, each to the address it came from, with the response
    [HandleReceivedData] gives for the whole datagram: 64 bytes that begin
    with the two identifier bytes of the request.  Cutting the datagram at
    the 512 bytes of the buffer changes nothing, and a send that fails does
    not stop the loop.  It returns at the first read error and otherwise
    waits for the next datagram. *)
Theorem main_serves (env : network) :
  resolves env = true -> binds env = true ->
  Forall (fun a => (6 <= length (snd a))%nat) (served (arrivals env)) ->
  Forall2 (fun w a =>
             snd w = fst a
             /\ HandleReceivedData (snd a) = Ok (fst w)
             /\ length (fst w) = 64%nat
             /\ take 2 (fst w) = take 2 (snd a))
          (writes (fst (main env))) (served (arrivals env))
  /\ requests (fst (main env))
     = map (fun a => (fst a, take 512 (snd a))) (served (arrivals env))
  /\ snd (main env)
     = if read_fails (arrivals env) then Returned else Receiving.
Proof.
  intros Hr Hb Hsix.
  destruct (main_with_serves HandleReceivedData env Hr Hb) as (Hw & Hq & Hs).
  { eapply Forall_impl; [exact Hsix|]. intros a Ha. cbn beta in *.
    apply HandleReceivedData_returns. rewrite length_take. lia. }
  split; [|split; assumption].
  fold main in Hw. revert Hw Hsix.
  generalize (writes (fst (main env))) (served (arrivals env)).
  induction 1 as [|w a ws sv [Hsrc Hresp] _ IH]; intros Hsix; constructor.
  - inversion Hsix as [|x l H6 Hl]; subst.
    rewrite HandleReceivedData_take in Hresp by exact H6.
    destruct (HandleReceivedData_Ok _ _ Hresp) as (Hlen & Hid).
    repeat split; assumption.
  - apply IH. now inversion Hsix.
Qed.

Lemma main_serves_witness :
  snd (main busy_network) = Returned
  /\ map snd (writes (fst (main busy_network)))
     = [client_a; client_b; client_a]
  /\ map (fun w => length (fst w)) (writes (fst (main busy_network)))
     = [64; 64; 64]%nat.
Proof.
  assert (H6 : Forall (fun a => (6 <= length (snd a))%nat)
                      (served (arrivals busy_network))).
  { repeat constructor; cbn; lia. }
  destruct (main_serves busy_network eq_refl eq_refl H6) as (Hw & Hq & Hs).
  split; [exact Hs|].
  clear Hq Hs. revert Hw.
  generalize (writes (fst (main busy_network))). intros ws Hw.
  cbn in Hw.
  repeat match goal with
         | H : Forall2 _ _ (_ :: _) |- _ =>
             apply Forall2_cons_inv_r in H;
             destruct H as (? & ? & (? & _ & ? & _) & ? & ->)
         | H : Forall2 _ _ [] |- _ => apply Forall2_nil_inv_r in H; subst
         end.
  cbn [map fst snd] in *. split; congruence.
Defined.

(** ** The header of [src/app/main.go] *)

(** X14.  The [BuildHeader] of [src/app/main.go] writes the identifier, the
    question count and the answer count of the header at offsets 0, 4 and 6
    and zero at offsets 8 and 10; the flags word at offset 2 is [0x8000],
    whatever flags, opcode and result code the header holds. *)
Theorem App_BuildHeader_words (h : DNSHeader) :
  0 <= Id h < 2 ^ 16 ->
  0 <= Questions h < 2 ^ 16 ->
  0 <= Answers h < 2 ^ 16 ->
  length (App.BuildHeader h) = 12%nat
  /\ be16_at (App.BuildHeader h) 0 = Ok (Id h)
  /\ be16_at (App.BuildHeader h) 2 = Ok 0x8000
  /\ be16_at (App.BuildHeader h) 4 = Ok (Questions h)
  /\ be16_at (App.BuildHeader h) 6 = Ok (Answers h)
  /\ be16_at (App.BuildHeader h) 8 = Ok 0
  /\ be16_at (App.BuildHeader h) 10 = Ok 0.
Proof.
  intros Hid Hq Ha. rewrite App_BuildHeader_bytes.
  destruct (be16_at_words (Id h) 0x8000 (Questions h) (Answers h)
              [Byte.x00; Byte.x00; Byte.x00; Byte.x00]) as (H0 & H2 & H4 & H6).
  cbv zeta in *. rewrite H0, H2, H4, H6.
  rewrite (uint16_small (Id h)), (uint16_small (Questions h)),
    (uint16_small (Answers h)) by assumption.
  repeat split.
Qed.

Lemma App_BuildHeader_words_witness :
  be16_at (App.BuildHeader all_flags) 0 = Ok 0xBEEF
  /\ be16_at (App.BuildHeader all_flags) 2 = Ok 0x8000.
Proof.
  destruct (App_BuildHeader_words all_flags) as (_ & H0 & H2 & _);
    [cbn; lia | cbn; lia | cbn; lia |].
  split; assumption.
Defined.
